(** * X6100 GUI: the CAT (CI-V) protocol core of [src/cat.c]

    A shallow embedding of the frame reader, the address rewriter, the
    mode translator, the command dispatcher and the protocol loop, with
    the properties the specification states about them. *)

From Stdlib Require Import ZArith Lia String Bool.
From stdpp Require Import base list.

Local Open Scope Z_scope.

(** ** Protocol constants (the [#define]s of cat.c) *)

Definition FRAME_PRE : Z := 0xFE.
Definition FRAME_END : Z := 0xFD.

Definition CODE_OK : Z := 0xFB.
Definition CODE_NG : Z := 0xFA.

Definition C_RD_FREQ : Z := 0x03.
Definition C_RD_MODE : Z := 0x04.
Definition C_SET_FREQ : Z := 0x05.
Definition C_SET_MODE : Z := 0x06.
Definition C_SET_VFO : Z := 0x07.
Definition C_CTL_PTT : Z := 0x1c.
Definition C_SEND_SEL_FREQ : Z := 0x25.
Definition C_SEND_SEL_MODE : Z := 0x26.

Definition S_VFOA : Z := 0x00.
Definition S_VFOB : Z := 0x01.

Definition M_LSB : Z := 0x00.
Definition M_USB : Z := 0x01.
Definition M_AM : Z := 0x02.
Definition M_CW : Z := 0x03.
Definition M_NFM : Z := 0x05.
Definition M_CWR : Z := 0x07.

(** [sizeof(frame)] *)
Definition FRAME_SIZE : Z := 256.

(** ** Types of the radio module

    The enumerations are declared in headers outside cat.c; only the
    enumerators that cat.c names are listed, and [x6100_mode_other]
    stands for any further value of the C type (the [default:] branches
    of the mode translator exist for those). *)

Inductive x6100_vfo_t : Set := X6100_VFO_A | X6100_VFO_B.

Inductive x6100_mode_t : Set :=
| x6100_mode_lsb
| x6100_mode_lsb_dig
| x6100_mode_usb
| x6100_mode_usb_dig
| x6100_mode_cw
| x6100_mode_cwr
| x6100_mode_am
| x6100_mode_nfm
| x6100_mode_other (n : Z).

Inductive radio_state_t : Set := RADIO_RX | RADIO_TX.

(** One slot of [params_band.vfo_x]. *)
Record vfo_params : Set := VfoParams {
  freq : Z;                 (* uint64_t, Hz *)
  mode : x6100_mode_t
}.

(** [params_band]: the active VFO and the two VFO slots. *)
Record params_band_t : Set := ParamsBand {
  vfo : x6100_vfo_t;
  vfo_a : vfo_params;
  vfo_b : vfo_params
}.

Definition vfo_x (p : params_band_t) (v : x6100_vfo_t) : vfo_params :=
  match v with X6100_VFO_A => vfo_a p | X6100_VFO_B => vfo_b p end.

Definition set_vfo_x (v : x6100_vfo_t) (x : vfo_params) (p : params_band_t)
  : params_band_t :=
  match v with
  | X6100_VFO_A => ParamsBand (vfo p) x (vfo_b p)
  | X6100_VFO_B => ParamsBand (vfo p) (vfo_a p) x
  end.

(** The radio side: everything cat.c reads or changes through radio.h
    and params.h. [bands_find] is the band table behind
    [params_bands_find]. *)
Record radio : Type := Radio {
  params_band : params_band_t;
  freq_band : option Z;            (* params.freq_band, a band id *)
  radio_state : radio_state_t;
  bands_find : Z -> option Z
}.

(** ** Observable effects, in program order *)

Inductive event : Type :=
| EvWrite (bs : list Z)                        (* write(fd, frame, len) *)
| EvLogError (msg : string)                    (* LV_LOG_ERROR *)
| EvLogWarn (op sub len : Z)                   (* LV_LOG_WARN("Unsuported ...") *)
| EvBandsActivate (band : option Z)            (* bands_activate *)
| EvRadioSetFreq (f : Z)                       (* radio_set_freq *)
| EvRadioSetMode (v : x6100_vfo_t) (m : x6100_mode_t)
| EvRadioSetVfo (v : x6100_vfo_t)              (* radio_set_vfo *)
| EvRadioSetPtt (on : bool)                    (* radio_set_ptt *)
| EvScreenUpdate.                              (* event_send(.., EVENT_SCREEN_UPDATE, ..) *)

(** ** Program state

    [frame] is the static 256-byte buffer. A store outside the buffer is
    undefined behaviour in C: the model leaves the buffer as it is and
    raises the sticky flag [oob]. [indet] is the indeterminate content
    of the uninitialised local [r_mode] of [ci_mode_2_x_mode]. *)
Record state : Type := State {
  frame : list Z;
  oob : bool;
  rig : radio;
  indet : x6100_mode_t;
  trace : list event
}.

Definition set_frame (f : list Z) (s : state) : state :=
  State f (oob s) (rig s) (indet s) (trace s).

Definition set_oob (s : state) : state :=
  State (frame s) true (rig s) (indet s) (trace s).

Definition set_rig (r : radio) (s : state) : state :=
  State (frame s) (oob s) r (indet s) (trace s).

Definition emit (e : event) (s : state) : state :=
  State (frame s) (oob s) (rig s) (indet s) (trace s ++ [e]).

Definition set_params_band (p : params_band_t) (r : radio) : radio :=
  Radio p (freq_band r) (radio_state r) (bands_find r).

(** Bytes put on the serial line by a trace. *)
Fixpoint sent (tr : list event) : list Z :=
  match tr with
  | [] => []
  | EvWrite bs :: tr' => bs ++ sent tr'
  | _ :: tr' => sent tr'
  end.

(** ** The frame buffer *)

(** [frame[i]] *)
Definition load (i : Z) (s : state) : Z := nth (Z.to_nat i) (frame s) 0.

(** [frame[i] = v] *)
Definition store (i v : Z) (s : state) : state :=
  if (0 <=? i) && (i <? FRAME_SIZE)
  then set_frame (<[Z.to_nat i := v]> (frame s)) s
  else set_oob s.

(** successive stores from offset [off] *)
Fixpoint store_list (off : Z) (bs : list Z) (s : state) : state :=
  match bs with
  | [] => s
  | b :: bs' => store_list (off + 1) bs' (store off b s)
  end.

(** the [n] bytes at [&frame[off]] *)
Definition load_list (off : Z) (n : nat) (s : state) : list Z :=
  take n (drop (Z.to_nat off) (frame s)).

(** ** BCD codec (util.h) *)

(** Modelled from the spec: the loop of [to_bcd], one byte per pair of
    digits: low nibble the even-position digit, high nibble the next
    one. *)
Fixpoint to_bcd_bytes (n : nat) (v : Z) : list Z :=
  match n with
  | O => []
  | S n' =>
      Z.lor (v mod 10) (Z.shiftl ((v / 10) mod 10) 4)
        :: to_bcd_bytes n' (v / 100)
  end.

(** Modelled from the spec: the loop of [from_bcd], reading the same
    layout back. *)
Fixpoint from_bcd_bytes (bs : list Z) : Z :=
  match bs with
  | [] => 0
  | b :: bs' => Z.land b 0x0F + 10 * (Z.shiftr b 4 + 10 * from_bcd_bytes bs')
  end.

(** Modelled from the spec: [to_bcd] of util.c, whose source lies
    outside cat.c. It writes [bcd_len] decimal digits of the value,
    least significant digit first, two digits per byte, the
    even-position digit in the low nibble and the next digit in the high
    nibble. The result is the byte sequence the C function stores at its
    first argument. *)
Definition to_bcd (v : Z) (bcd_len : Z) : list Z :=
  to_bcd_bytes (Z.to_nat (bcd_len / 2)) v.

(** Modelled from the spec: [from_bcd] of util.c, whose source lies
    outside cat.c: the inverse of [to_bcd], reading [bcd_len / 2] bytes
    of the same packed layout. *)
Definition from_bcd (bcd_data : list Z) (bcd_len : Z) : Z :=
  from_bcd_bytes (take (Z.to_nat (bcd_len / 2)) bcd_data).

(** ** The radio bridge (radio.h, params.h, events.h) *)

(** Modelled from the spec: [params_bands_find] of params.c, whose
    source lies outside cat.c: [lookup_band(frequency) -> band_or_none].
    On success the band found is left in [params.freq_band]. *)
Definition params_bands_find (f : Z) (s : state) : bool * state :=
  match bands_find (rig s) f with
  | Some b =>
      (true,
       set_rig (Radio (params_band (rig s)) (Some b)
                      (radio_state (rig s)) (bands_find (rig s))) s)
  | None => (false, s)
  end.

(** Modelled from the spec: [bands_activate] of the band module, whose
    source lies outside cat.c: the band configuration in
    [params.freq_band] is reselected; the VFO slots are not touched. *)
Definition bands_activate (s : state) : state :=
  emit (EvBandsActivate (freq_band (rig s))) s.

(** Modelled from the spec: [radio_set_freq] of radio.c, whose source
    lies outside cat.c: [set_frequency(integer Hz)] applies to the
    active VFO. *)
Definition radio_set_freq (f : Z) (s : state) : state :=
  let p := params_band (rig s) in
  emit (EvRadioSetFreq f)
    (set_rig (set_params_band
                (set_vfo_x (vfo p) (VfoParams f (mode (vfo_x p (vfo p)))) p)
                (rig s)) s).

(** Modelled from the spec: [radio_set_mode] of radio.c, whose source
    lies outside cat.c: [set_mode(vfo, domain_mode)]. *)
Definition radio_set_mode (v : x6100_vfo_t) (m : x6100_mode_t) (s : state)
  : state :=
  let p := params_band (rig s) in
  emit (EvRadioSetMode v m)
    (set_rig (set_params_band
                (set_vfo_x v (VfoParams (freq (vfo_x p v)) m) p) (rig s)) s).

(** Modelled from the spec: [radio_set_vfo] of radio.c, whose source
    lies outside cat.c: [set_active_vfo(vfo)]. *)
Definition radio_set_vfo (v : x6100_vfo_t) (s : state) : state :=
  let p := params_band (rig s) in
  emit (EvRadioSetVfo v)
    (set_rig (set_params_band (ParamsBand v (vfo_a p) (vfo_b p)) (rig s)) s).

(** Modelled from the spec: [radio_set_ptt] of radio.c, whose source
    lies outside cat.c: [set_ptt(bool)] switches between receiving and
    transmitting. *)
Definition radio_set_ptt (on : bool) (s : state) : state :=
  emit (EvRadioSetPtt on)
    (set_rig (Radio (params_band (rig s)) (freq_band (rig s))
                    (if on then RADIO_TX else RADIO_RX)
                    (bands_find (rig s))) s).

(** Modelled from the spec: [radio_get_state] of radio.c, whose source
    lies outside cat.c: [get_transmit_state()]. *)
Definition radio_get_state (s : state) : radio_state_t := radio_state (rig s).

(** [event_send(lv_scr_act(), EVENT_SCREEN_UPDATE, NULL)] *)
Definition event_send_screen_update (s : state) : state := emit EvScreenUpdate s.

(** ** cat.c *)

Definition prepare_answer (s : state) : state :=
  let s := store 2 (load 3 s) s in
  store 3 0xA4 s.

Definition send_frame (len : Z) (s : state) : state :=
  let s := store (len - 1) FRAME_END s in
  emit (EvWrite (take (Z.to_nat len) (frame s))) s.

Definition send_code (code : Z) (s : state) : state :=
  let s := store 4 code s in
  send_frame 6 s.

Definition set_freq (f : Z) (s : state) : state :=
  let '(found, s) := params_bands_find f s in
  let s := if found then bands_activate s else s in
  let s := radio_set_freq f s in
  event_send_screen_update s.

(** The second argument is the byte [dig_mode] points to, [None] for a
    null pointer; the first is the initial content of [r_mode]. *)
Definition ci_mode_2_x_mode (r_mode : x6100_mode_t) (mode : Z)
    (dig_mode : option Z) : x6100_mode_t :=
  let data_mode :=
    match dig_mode with Some d => negb (d =? 0) | None => false end in
  if mode =? M_LSB then
    if data_mode then x6100_mode_lsb_dig else x6100_mode_lsb
  else if mode =? M_USB then
    if data_mode then x6100_mode_usb_dig else x6100_mode_usb
  else if mode =? M_AM then x6100_mode_am
  else if mode =? M_CW then x6100_mode_cw
  else if mode =? M_NFM then x6100_mode_nfm
  else if mode =? M_CWR then x6100_mode_cwr
  else r_mode.

Definition x_mode_2_ci_mode (m : x6100_mode_t) : Z :=
  match m with
  | x6100_mode_lsb | x6100_mode_lsb_dig => M_LSB
  | x6100_mode_usb | x6100_mode_usb_dig => M_USB
  | x6100_mode_cw => M_CW
  | x6100_mode_cwr => M_CWR
  | x6100_mode_am => M_AM
  | x6100_mode_nfm => M_NFM
  | x6100_mode_other _ => 0
  end.

Definition set_vfo (v : Z) (s : state) : bool * state :=
  if v =? S_VFOA then (true, radio_set_vfo X6100_VFO_A s)
  else if v =? S_VFOB then (true, radio_set_vfo X6100_VFO_B s)
  else (false, s).

(** [params_band.vfo_x[v].freq = f] *)
Definition assign_freq (v : x6100_vfo_t) (f : Z) (s : state) : state :=
  let p := params_band (rig s) in
  set_rig (set_params_band
             (set_vfo_x v (VfoParams f (mode (vfo_x p v))) p) (rig s)) s.

Definition active_vfo (s : state) : x6100_vfo_t := vfo (params_band (rig s)).

Definition vfo_eqb (a b : x6100_vfo_t) : bool :=
  match a, b with
  | X6100_VFO_A, X6100_VFO_A | X6100_VFO_B, X6100_VFO_B => true
  | _, _ => false
  end.

(** The [switch (frame[4])] of [frame_parse]. *)
Definition frame_dispatch (len : Z) (s : state) : state :=
  let op := load 4 s in
  if op =? C_RD_FREQ then
    let s := store_list 5
               (to_bcd (freq (vfo_x (params_band (rig s)) (active_vfo s))) 10) s in
    send_frame 11 s
  else if op =? C_RD_MODE then
    let v := x_mode_2_ci_mode (mode (vfo_x (params_band (rig s)) (active_vfo s))) in
    let s := store 5 v s in
    let s := store 6 v s in
    send_frame 8 s
  else if op =? C_SET_FREQ then
    let s := set_freq (from_bcd (load_list 5 5 s) 10) s in
    send_code CODE_OK s
  else if op =? C_SET_MODE then
    let s := radio_set_mode (active_vfo s)
               (ci_mode_2_x_mode (indet s) (load 5 s) None) s in
    let s := event_send_screen_update s in
    send_code CODE_OK s
  else if op =? C_CTL_PTT then
    if load 5 s =? 0x00 then
      if load 6 s =? FRAME_END then
        let s := store 6 (match radio_get_state s with
                          | RADIO_RX => 0 | _ => 1 end) s in
        send_frame 8 s
      else
        let s := if load 6 s =? 0 then radio_set_ptt false s
                 else if load 6 s =? 1 then radio_set_ptt true s
                 else s in
        let s := store 6 CODE_OK s in
        send_frame 8 s
    else s
  else if op =? C_SET_VFO then
    let '(ok, s) := set_vfo (load 5 s) s in
    if ok then
      let s := event_send_screen_update s in
      send_code CODE_OK s
    else send_code CODE_NG s
  else if op =? C_SEND_SEL_FREQ then
    if load 6 s =? FRAME_END then
      let f := if load 5 s =? 0x00
               then freq (vfo_x (params_band (rig s)) X6100_VFO_A)
               else freq (vfo_x (params_band (rig s)) X6100_VFO_B) in
      let s := store_list 6 (to_bcd f 10) s in
      send_frame 12 s
    else
      let f := from_bcd (load_list 6 5 s) 10 in
      let s :=
        if load 5 s =? 0x00 then
          let s := assign_freq X6100_VFO_A f s in
          if vfo_eqb (active_vfo s) X6100_VFO_A then set_freq f s else s
        else
          let s := assign_freq X6100_VFO_B f s in
          if vfo_eqb (active_vfo s) X6100_VFO_B then set_freq f s else s in
      send_code CODE_OK s
  else if op =? C_SEND_SEL_MODE then
    if load 6 s =? FRAME_END then
      let s := store 6 0 s in
      let s := store 7 0 s in
      let s := store 8 CODE_OK s in
      send_frame 10 s
    else
      let v := if negb (load 5 s =? 0)
               then match active_vfo s with
                    | X6100_VFO_A => X6100_VFO_B
                    | X6100_VFO_B => X6100_VFO_A
                    end
               else active_vfo s in
      let s := radio_set_mode v
                 (ci_mode_2_x_mode (indet s) (load 6 s) (Some (load 7 s))) s in
      let s := event_send_screen_update s in
      send_code CODE_OK s
  else
    let s := emit (EvLogWarn (load 4 s) (load 5 s) len) s in
    send_code CODE_NG s.

Definition frame_parse (len : Z) (s : state) : state :=
  if negb (load 0 s =? FRAME_PRE) && negb (load 1 s =? FRAME_PRE) then
    emit (EvLogError "Incorrect frame") s
  else
    (* echo input frame *)
    let s := send_frame len s in
    let s := prepare_answer s in
    frame_dispatch len s.

(** The [while (true)] of [frame_get]. [inp] lists the results of the
    successive [read(fd, &c, 1)] calls: [Some c] for a byte, [None] when
    nothing is available (the loop sleeps and polls again). The result
    is the returned length, the state and the reads not yet consumed;
    [None] when the reads run out before the function returns. *)
Fixpoint frame_get_loop (inp : list (option Z)) (len : Z) (s : state)
  : option (Z * state * list (option Z)) :=
  match inp with
  | [] => None
  | None :: inp' => frame_get_loop inp' len s
  | Some c :: inp' =>
      let s := store len c s in
      let len := len + 1 in
      if c =? FRAME_END then Some (len, s, inp')
      else if len >=? FRAME_SIZE then Some (0, s, inp')
      else frame_get_loop inp' len s
  end.

Definition frame_get (inp : list (option Z)) (s : state)
  : option (Z * state * list (option Z)) :=
  let s := set_frame (replicate (Z.to_nat FRAME_SIZE) 0) s in
  frame_get_loop inp 0 s.

(** [n] iterations of the [while (true)] of [cat_thread]; the run stops
    early when [frame_get] waits for bytes that never arrive. *)
Fixpoint cat_thread (n : nat) (inp : list (option Z)) (s : state) : state :=
  match n with
  | O => s
  | S n' =>
      match frame_get inp s with
      | None => s
      | Some (len, s, inp') =>
          let s := if len >=? 0 then frame_parse len s else s in
          cat_thread n' inp' s
      end
  end.

(** ** Frames on the wire *)

(** [terminated bs]: [bs] is not empty, its last byte is the terminator
    and no earlier byte is. *)
Fixpoint terminated (bs : list Z) : bool :=
  match bs with
  | [] => false
  | [b] => b =? FRAME_END
  | b :: bs' => negb (b =? FRAME_END) && terminated bs'
  end.

(** A complete inbound frame that fits the buffer. *)
Definition complete (bs : list Z) : bool :=
  terminated bs && (Z.of_nat (length bs) <=? FRAME_SIZE).

Definition valid_preamble (bs : list Z) : bool :=
  (nth 0 bs 0 =? FRAME_PRE) && (nth 1 bs 0 =? FRAME_PRE).

(** The reads that deliver the bytes [bs] without a pause. *)
Definition feed (bs : list Z) : list (option Z) := map Some bs.

(** The state [frame_get] leaves after it has read the frame [bs]: the
    buffer cleared, then filled from its start. *)
Definition recv (bs : list Z) (s : state) : state :=
  set_frame (bs ++ replicate (Z.to_nat FRAME_SIZE - length bs) 0) s.

(** No terminator among the bytes. *)
Definition unterminated (bs : list Z) : bool :=
  forallb (fun b => negb (b =? FRAME_END)) bs.

(** The wire mode codes the translator knows. *)
Definition known_mode (m : Z) : bool :=
  (m =? M_LSB) || (m =? M_USB) || (m =? M_AM) || (m =? M_CW)
  || (m =? M_NFM) || (m =? M_CWR).

(** [extends s s']: [s'] has the trace of [s] and possibly more. *)
Definition extends (s s' : state) : Prop :=
  exists evs, trace s' = trace s ++ evs.

(** The opcodes [frame_parse] has a case for. *)
Definition known_opcode (op : Z) : bool :=
  (op =? C_RD_FREQ) || (op =? C_RD_MODE) || (op =? C_SET_FREQ)
  || (op =? C_SET_MODE) || (op =? C_CTL_PTT) || (op =? C_SET_VFO)
  || (op =? C_SEND_SEL_FREQ) || (op =? C_SEND_SEL_MODE).

(** The digital variants of the domain modes. *)
Definition x_mode_digital (m : x6100_mode_t) : bool :=
  match m with
  | x6100_mode_lsb_dig | x6100_mode_usb_dig => true
  | _ => false
  end.

(** The domain modes cat.c names. *)
Definition x_mode_named (m : x6100_mode_t) : bool :=
  match m with x6100_mode_other _ => false | _ => true end.

Definition other_vfo (v : x6100_vfo_t) : x6100_vfo_t :=
  match v with
  | X6100_VFO_A => X6100_VFO_B
  | X6100_VFO_B => X6100_VFO_A
  end.

(** The five bytes at [&frame[off]] once the frame [bs] is in the
    cleared buffer: bytes past the end of [bs] read as zero. *)
Definition payload5 (off : nat) (bs : list Z) : list Z :=
  [nth off bs 0; nth (off + 1) bs 0; nth (off + 2) bs 0; nth (off + 3) bs 0;
   nth (off + 4) bs 0].

(** The bytes a sequence of reads delivers, pauses left out. *)
Definition delivered (inp : list (option Z)) : list Z := omap id inp.

(** ** Sample states and frames *)

Definition rig0 : radio :=
  Radio (ParamsBand X6100_VFO_A
           (VfoParams 14074000 x6100_mode_usb)
           (VfoParams 7100000 x6100_mode_lsb))
        None RADIO_RX (fun _ => None).

Definition state0 : state :=
  State (replicate 256 0) false rig0 x6100_mode_lsb [].

(** VFO A tuned to a frequency of 11 decimal digits *)
Definition state_11_digits : state :=
  State (replicate 256 0) false
        (Radio (ParamsBand X6100_VFO_A
                  (VfoParams 12345678901 x6100_mode_usb)
                  (VfoParams 7100000 x6100_mode_lsb))
               None RADIO_RX (fun _ => None))
        x6100_mode_lsb [].

(** read-frequency request of the specification's scenario *)
Definition rd_freq_request : list Z := [0xFE; 0xFE; 0x00; 0xA4; 0x03; 0xFD].

(** a frame whose second byte is not the preamble byte *)
Definition half_preamble_request : list Z :=
  [0xFE; 0x00; 0xA4; 0xE0; 0x03; 0xFD].

(** a select-VFO-B frame whose first byte is not the preamble byte *)
Definition half_preamble_set_vfo : list Z :=
  [0x00; 0xFE; 0xA4; 0xE0; 0x07; 0x01; 0xFD].

(** 256 bytes without a terminator that start like a read-frequency
    request *)
Definition overlong_rd_freq : list Z :=
  [0xFE; 0xFE; 0xA4; 0xE0; 0x03] ++ replicate 251 0.

(** 256 bytes without a terminator that start like a select-VFO-B
    request *)
Definition overlong_set_vfo : list Z :=
  [0xFE; 0xFE; 0xA4; 0xE0; 0x07; 0x01] ++ replicate 250 0.

(** * Properties *)

(** ** BCD codec *)

Lemma digit_cases (a : Z) :
  0 <= a < 10 ->
  a = 0 \/ a = 1 \/ a = 2 \/ a = 3 \/ a = 4 \/ a = 5 \/ a = 6 \/ a = 7
  \/ a = 8 \/ a = 9.
Proof. lia. Qed.

(** Case analysis on two decimal digits. *)
Ltac digits a b :=
  let Ha := fresh in
  let Hb := fresh in
  intros Ha%digit_cases Hb%digit_cases;
  repeat (destruct Ha as [-> | Ha]); try subst a;
  repeat (destruct Hb as [-> | Hb]); try subst b.

Lemma nibbles_pack (a b : Z) :
  0 <= a < 10 -> 0 <= b < 10 ->
  Z.land (Z.lor a (Z.shiftl b 4)) 0x0F = a /\
  Z.shiftr (Z.lor a (Z.shiftl b 4)) 4 = b.
Proof. digits a b; split; reflexivity. Qed.

(** Two packed digits never look like the terminator. *)
Lemma nibbles_bound (a b : Z) :
  0 <= a < 10 -> 0 <= b < 10 -> Z.lor a (Z.shiftl b 4) <> FRAME_END.
Proof. digits a b; discriminate. Qed.

Lemma to_bcd_bytes_length (n : nat) (v : Z) : length (to_bcd_bytes n v) = n.
Proof. revert v. induction n as [| n IH]; intros v; simpl; [done | by rewrite IH]. Qed.

Lemma from_to_bcd_bytes (n : nat) (v : Z) :
  0 <= v -> from_bcd_bytes (to_bcd_bytes n v) = v mod 100 ^ Z.of_nat n.
Proof.
  revert v. induction n as [| n IH]; intros v Hv.
  - simpl. by rewrite Z.mod_1_r.
  - cbn [to_bcd_bytes from_bcd_bytes].
    destruct (nibbles_pack (v mod 10) ((v / 10) mod 10)) as [-> ->];
      [apply Z.mod_pos_bound; lia | apply Z.mod_pos_bound; lia |].
    rewrite IH by (apply Z.div_pos; lia).
    rewrite Nat2Z.inj_succ, Z.pow_succ_r by lia.
    assert (H100 : 0 < 100 ^ Z.of_nat n) by (apply Z.pow_pos_nonneg; lia).
    pose proof (Z.rem_mul_r v 100 (100 ^ Z.of_nat n)) as E1.
    pose proof (Z.rem_mul_r v 10 10) as E2.
    change (10 * 10) with 100 in E2. lia.
Qed.

Lemma from_to_bcd (v d : Z) :
  0 <= v -> 0 <= d -> Z.even d = true ->
  from_bcd (to_bcd v d) d = v mod 10 ^ d.
Proof.
  intros Hv Hd He. unfold from_bcd, to_bcd.
  rewrite firstn_all2 by (rewrite to_bcd_bytes_length; lia).
  rewrite from_to_bcd_bytes by done.
  rewrite Z2Nat.id by (apply Z.div_pos; lia).
  apply Zeven_bool_iff, Zeven_div2 in He.
  rewrite Z.div2_div in He.
  rewrite He at 2. rewrite Z.pow_mul_r by (try apply Z.div_pos; lia).
  reflexivity.
Qed.

(** The codec at the width of a frequency field: 10 digits, 5 bytes. *)
Lemma bcd_codec_10 (v : Z) :
  0 <= v ->
  length (to_bcd v 10) = 5%nat /\
  from_bcd (to_bcd v 10) 10 = v mod 10 ^ 10 /\
  (v < 10 ^ 10 -> from_bcd (to_bcd v 10) 10 = v).
Proof.
  intros Hv. split; [apply to_bcd_bytes_length |].
  split; [by apply from_to_bcd |].
  intros Hlt. rewrite from_to_bcd by done. apply Z.mod_small. lia.
Qed.

(** C3. For an even digit count [d], decoding the [d]-digit packed-BCD
    encoding of [v] gives [v] again whenever [v] has at most [d] decimal
    digits; a larger value is encoded as its low [d] digits, in
    [d / 2] bytes either way. *)
Theorem bcd_roundtrip (v d : Z) :
  0 <= v -> 0 <= d -> Z.even d = true ->
  length (to_bcd v d) = Z.to_nat (d / 2) /\
  from_bcd (to_bcd v d) d = v mod 10 ^ d /\
  (v < 10 ^ d -> from_bcd (to_bcd v d) d = v).
Proof.
  intros Hv Hd He. split; [apply to_bcd_bytes_length |].
  split; [by apply from_to_bcd |].
  intros Hlt. rewrite from_to_bcd by done. apply Z.mod_small. lia.
Qed.

Lemma bcd_roundtrip_witness :
  length (to_bcd 14074000 10) = 5%nat /\
  from_bcd (to_bcd 14074000 10) 10 = 14074000 mod 10 ^ 10 /\
  (14074000 < 10 ^ 10 -> from_bcd (to_bcd 14074000 10) 10 = 14074000).
Proof. apply (bcd_roundtrip 14074000 10); [lia | lia | reflexivity]. Defined.

(** ** Mode translator *)

(** C9. A known wire mode code survives the translation to the domain
    mode and back, whatever the data flag (absent, clear or set) and
    whatever the uninitialised result variable happens to hold. *)
Theorem mode_roundtrip (r : x6100_mode_t) (m : Z) (flag : option Z) :
  known_mode m = true ->
  x_mode_2_ci_mode (ci_mode_2_x_mode r m flag) = m.
Proof.
  unfold known_mode, ci_mode_2_x_mode. intros H.
  destruct (Z.eqb_spec m M_LSB) as [-> | _];
    [by destruct flag as [d |]; [destruct (d =? 0) |] |].
  destruct (Z.eqb_spec m M_USB) as [-> | _];
    [by destruct flag as [d |]; [destruct (d =? 0) |] |].
  destruct (Z.eqb_spec m M_AM) as [-> | _]; [done |].
  destruct (Z.eqb_spec m M_CW) as [-> | _]; [done |].
  destruct (Z.eqb_spec m M_NFM) as [-> | _]; [done |].
  destruct (Z.eqb_spec m M_CWR) as [-> | _]; [done |].
  discriminate H.
Qed.

Lemma mode_roundtrip_witness :
  x_mode_2_ci_mode (ci_mode_2_x_mode x6100_mode_am M_USB (Some 1)) = M_USB.
Proof. apply (mode_roundtrip x6100_mode_am M_USB (Some 1)). reflexivity. Defined.

(** The digital variants are not told apart on the wire. *)
Lemma x_mode_2_ci_mode_dig :
  x_mode_2_ci_mode x6100_mode_lsb_dig = x_mode_2_ci_mode x6100_mode_lsb /\
  x_mode_2_ci_mode x6100_mode_usb_dig = x_mode_2_ci_mode x6100_mode_usb.
Proof. by split. Qed.

(** ** The frame buffer *)

Lemma state_eta (s : state) :
  State (frame s) (oob s) (rig s) (indet s) (trace s) = s.
Proof. by destruct s. Qed.

Lemma store_in (i v : Z) (s : state) :
  0 <= i < FRAME_SIZE ->
  store i v s = set_frame (<[Z.to_nat i := v]> (frame s)) s.
Proof.
  intros [H0 H1]. unfold store.
  apply Z.leb_le in H0. apply Z.ltb_lt in H1. by rewrite H0, H1.
Qed.

Lemma store_same (i : Z) (s : state) :
  0 <= i < FRAME_SIZE -> (Z.to_nat i < length (frame s))%nat ->
  store i (load i s) s = s.
Proof.
  intros Hi Hlen. rewrite store_in by done. unfold load, set_frame.
  rewrite list_insert_id; [apply state_eta |].
  destruct (nth_lookup_or_length (frame s) (Z.to_nat i) 0) as [H | H];
    [exact H | lia].
Qed.

Lemma nth_replicate_0 (i n : nat) : nth i (replicate n 0) 0 = 0.
Proof. revert i. induction n as [| n IH]; intros [| i]; simpl; auto. Qed.

Lemma nth_pad (i : nat) (bs : list Z) (n : nat) :
  nth i (bs ++ replicate n 0) 0 = nth i bs 0.
Proof.
  destruct (Nat.lt_ge_cases i (length bs)) as [H | H].
  - by rewrite app_nth1.
  - rewrite app_nth2 by lia. rewrite nth_replicate_0.
    symmetry. by apply nth_overflow.
Qed.

Lemma load_recv (i : Z) (bs : list Z) (s : state) :
  load i (recv bs s) = nth (Z.to_nat i) bs 0.
Proof. unfold load, recv. simpl. apply nth_pad. Qed.

Lemma insert_middle (pre : list Z) (x c : Z) (tl : list Z) :
  <[length pre := c]> (pre ++ x :: tl) = pre ++ c :: tl.
Proof. induction pre as [| p pre IH]; simpl; [done | by rewrite IH]. Qed.

Lemma set_frame_twice (f g : list Z) (s : state) :
  set_frame f (set_frame g s) = set_frame f s.
Proof. done. Qed.

(** ** The frame reader *)

Lemma terminated_cons (b : Z) (bs : list Z) :
  terminated (b :: bs) = true ->
  (b = FRAME_END /\ bs = []) \/ (b <> FRAME_END /\ terminated bs = true).
Proof.
  destruct bs as [| b' bs]; simpl.
  - intros H. left. split; [by apply Z.eqb_eq | done].
  - intros [H1 H2]%andb_true_iff. right. split; [| done].
    apply negb_true_iff, Z.eqb_neq in H1. done.
Qed.

Lemma terminated_last (bs : list Z) :
  terminated bs = true -> nth (length bs - 1) bs 0 = FRAME_END.
Proof.
  induction bs as [| b bs IH]; [done |].
  intros [[-> ->] | [_ H]]%terminated_cons; [done |].
  destruct bs as [| b' bs]; [done |].
  specialize (IH H). simpl in *. by rewrite Nat.sub_0_r in IH.
Qed.

Lemma frame_get_loop_complete (bs : list Z) :
  forall (rest : list (option Z)) (pre : list Z) (k : nat) (s : state),
    terminated bs = true ->
    frame s = pre ++ replicate (length bs + k) 0 ->
    (length pre + length bs + k = 256)%nat ->
    frame_get_loop (feed bs ++ rest) (Z.of_nat (length pre)) s
    = Some (Z.of_nat (length pre + length bs),
            set_frame (pre ++ bs ++ replicate k 0) s, rest).
Proof.
  induction bs as [| b bs IH]; intros rest pre k s Ht Hf Hlen; [done |].
  cbn [feed map app frame_get_loop].
  rewrite store_in by (unfold FRAME_SIZE; simpl in Hlen; lia).
  rewrite Nat2Z.id, Hf. cbn [length Nat.add replicate].
  rewrite insert_middle.
  apply terminated_cons in Ht as [[-> ->] | [Hb Ht]].
  - simpl. do 3 f_equal. lia.
  - apply Z.eqb_neq in Hb. rewrite Hb.
    destruct bs as [| b' bs]; [done |].
    assert (Hge : (Z.of_nat (length pre) + 1 >=? FRAME_SIZE) = false).
    { unfold FRAME_SIZE. simpl in Hlen. lia. }
    rewrite Hge.
    replace (Z.of_nat (length pre) + 1) with (Z.of_nat (length (pre ++ [b])))
      by (rewrite length_app; simpl; lia).
    rewrite (IH rest (pre ++ [b]) k); [ | done | | ].
    + rewrite set_frame_twice, <- app_assoc, length_app. simpl.
      do 3 f_equal. lia.
    + simpl. by rewrite <- app_assoc.
    + rewrite length_app. simpl in *. lia.
Qed.

Lemma frame_get_complete (bs : list Z) (rest : list (option Z)) (s : state) :
  complete bs = true ->
  frame_get (feed bs ++ rest) s = Some (Z.of_nat (length bs), recv bs s, rest).
Proof.
  intros [Ht Hl%Z.leb_le]%andb_true_iff. unfold frame_get, FRAME_SIZE in *.
  change (Z.of_nat 0) with (Z.of_nat (length (@nil Z))).
  rewrite (frame_get_loop_complete bs rest [] (256 - length bs)).
  - cbn [length Nat.add app]. unfold recv, FRAME_SIZE.
    by rewrite set_frame_twice.
  - done.
  - cbn [app set_frame frame]. f_equal. lia.
  - cbn [length]. lia.
Qed.

Lemma frame_get_loop_overflow (bs : list Z) :
  forall (rest : list (option Z)) (pre : list Z) (s : state),
    bs <> [] -> unterminated bs = true ->
    frame s = pre ++ replicate (length bs) 0 ->
    (length pre + length bs = 256)%nat ->
    frame_get_loop (feed bs ++ rest) (Z.of_nat (length pre)) s
    = Some (0, set_frame (pre ++ bs) s, rest).
Proof.
  induction bs as [| b bs IH]; intros rest pre s Hne Hu Hf Hlen; [done |].
  cbn [feed map app frame_get_loop].
  rewrite store_in by (unfold FRAME_SIZE; simpl in Hlen; lia).
  rewrite Nat2Z.id, Hf. cbn [length replicate]. rewrite insert_middle.
  apply andb_true_iff in Hu as [Hb Hu].
  apply negb_true_iff in Hb. rewrite Hb.
  destruct bs as [| b' bs].
  - assert (Hge : (Z.of_nat (length pre) + 1 >=? FRAME_SIZE) = true)
      by (unfold FRAME_SIZE; simpl in Hlen; lia).
    by rewrite Hge.
  - assert (Hge : (Z.of_nat (length pre) + 1 >=? FRAME_SIZE) = false)
      by (unfold FRAME_SIZE; simpl in Hlen; lia).
    rewrite Hge.
    replace (Z.of_nat (length pre) + 1) with (Z.of_nat (length (pre ++ [b])))
      by (rewrite length_app; simpl; lia).
    rewrite (IH rest (pre ++ [b])); [ | done | done | | ].
    + by rewrite set_frame_twice, <- app_assoc.
    + simpl. by rewrite <- app_assoc.
    + rewrite length_app. simpl in *. lia.
Qed.

(** When 256 bytes arrive without a terminator, [frame_get] gives up and
    returns 0; the bytes stay in the buffer. *)
Lemma frame_get_overflow (bs : list Z) (rest : list (option Z)) (s : state) :
  length bs = 256%nat -> unterminated bs = true ->
  frame_get (feed bs ++ rest) s = Some (0, recv bs s, rest).
Proof.
  intros Hl Hu. unfold frame_get, FRAME_SIZE.
  change 0 with (Z.of_nat (length (@nil Z))) at 2.
  rewrite (frame_get_loop_overflow bs rest []).
  - unfold recv, FRAME_SIZE. rewrite set_frame_twice, Hl.
    change (Z.to_nat 256 - 256)%nat with 0%nat. by rewrite app_nil_r.
  - by destruct bs.
  - done.
  - cbn [app set_frame frame]. by rewrite Hl.
  - cbn [length]. lia.
Qed.

(** Polling pauses do not change what [frame_get] returns. *)
Lemma frame_get_loop_polls (inp : list (option Z)) :
  forall (len : Z) (s : state),
    frame_get_loop (feed (omap id inp)) len s
    = match frame_get_loop inp len s with
      | Some (l, s', r) => Some (l, s', feed (omap id r))
      | None => None
      end.
Proof.
  induction inp as [| [c |] inp IH]; intros len s; simpl; [done | | apply IH].
  destruct (c =? FRAME_END); [done |].
  destruct (len + 1 >=? FRAME_SIZE); [done | apply IH].
Qed.

Lemma cat_thread_polls (n : nat) :
  forall (inp : list (option Z)) (s : state),
    cat_thread n (feed (omap id inp)) s = cat_thread n inp s.
Proof.
  induction n as [| n IH]; intros inp s; [done |].
  cbn [cat_thread]. unfold frame_get. rewrite frame_get_loop_polls.
  destruct (frame_get_loop inp 0 _) as [[[l s'] r] |]; [apply IH | done].
Qed.

(** ** Traces only grow *)

Lemma extends_refl (s : state) : extends s s.
Proof. exists []. by rewrite app_nil_r. Qed.

Lemma extends_trans (s1 s2 s3 : state) :
  extends s1 s2 -> extends s2 s3 -> extends s1 s3.
Proof.
  intros [e1 H1] [e2 H2]. exists (e1 ++ e2). by rewrite H2, H1, app_assoc.
Qed.

Lemma extends_emit (e : event) (s s' : state) :
  extends s s' -> extends s (emit e s').
Proof.
  intros H. apply (extends_trans _ _ _ H). by exists [e].
Qed.

Lemma extends_set_rig (r : radio) (s s' : state) :
  extends s s' -> extends s (set_rig r s').
Proof. done. Qed.

Lemma extends_store (i v : Z) (s s' : state) :
  extends s s' -> extends s (store i v s').
Proof. unfold store. by destruct (_ && _). Qed.

Lemma extends_store_list (bs : list Z) :
  forall (off : Z) (s s' : state),
    extends s s' -> extends s (store_list off bs s').
Proof.
  induction bs as [| b bs IH]; intros off s s' H; simpl; [done |].
  by apply IH, extends_store.
Qed.

Lemma extends_send_frame (len : Z) (s s' : state) :
  extends s s' -> extends s (send_frame len s').
Proof. intros H. by apply extends_emit, extends_store. Qed.

Lemma extends_send_code (code : Z) (s s' : state) :
  extends s s' -> extends s (send_code code s').
Proof. intros H. by apply extends_send_frame, extends_store. Qed.

Lemma extends_set_freq (f : Z) (s s' : state) :
  extends s s' -> extends s (set_freq f s').
Proof.
  intros H. unfold set_freq, params_bands_find.
  destruct (bands_find (rig s') f);
    repeat first [apply extends_emit | apply extends_set_rig]; done.
Qed.

Lemma extends_radio_set_mode (v : x6100_vfo_t) (m : x6100_mode_t)
    (s s' : state) :
  extends s s' -> extends s (radio_set_mode v m s').
Proof. intros H. by apply extends_emit, extends_set_rig. Qed.

Lemma extends_radio_set_ptt (on : bool) (s s' : state) :
  extends s s' -> extends s (radio_set_ptt on s').
Proof. intros H. by apply extends_emit, extends_set_rig. Qed.

Lemma extends_radio_set_vfo (v : x6100_vfo_t) (s s' : state) :
  extends s s' -> extends s (radio_set_vfo v s').
Proof. intros H. by apply extends_emit, extends_set_rig. Qed.

Lemma extends_assign_freq (v : x6100_vfo_t) (f : Z) (s s' : state) :
  extends s s' -> extends s (assign_freq v f s').
Proof. done. Qed.

Create HintDb cat_trace.

#[local] Hint Resolve extends_refl extends_emit extends_set_rig extends_store
  extends_store_list extends_send_frame extends_send_code extends_set_freq
  extends_radio_set_mode extends_radio_set_ptt extends_radio_set_vfo
  extends_assign_freq : cat_trace.

Lemma extends_frame_dispatch (len : Z) (s s' : state) :
  extends s s' -> extends s (frame_dispatch len s').
Proof.
  intros H.
  unfold frame_dispatch, set_vfo, event_send_screen_update.
  repeat case_match; simplify_eq; eauto 10 with cat_trace.
Qed.

(** ** The dispatcher *)

Lemma complete_length (bs : list Z) :
  complete bs = true -> (0 < length bs <= 256)%nat.
Proof.
  intros [Ht Hl%Z.leb_le]%andb_true_iff. unfold FRAME_SIZE in Hl.
  destruct bs; [done | simpl in *; lia].
Qed.

(** A byte of a terminated frame that is neither zero nor the terminator
    lies before the last byte. *)
Lemma terminated_nth_lt (bs : list Z) (i : nat) :
  terminated bs = true ->
  nth i bs 0 <> 0 -> nth i bs 0 <> FRAME_END -> (i + 1 < length bs)%nat.
Proof.
  intros Ht H0 Hend.
  destruct (Nat.lt_ge_cases i (length bs)) as [Hlt | Hge];
    [| by rewrite nth_overflow in H0].
  destruct (Nat.eq_dec i (length bs - 1)%nat) as [-> | Hne]; [| lia].
  by rewrite terminated_last in Hend.
Qed.

(** Echoing a complete frame writes the received bytes and leaves the
    buffer as it is. *)
Lemma send_frame_recv (bs : list Z) (s : state) :
  complete bs = true ->
  send_frame (Z.of_nat (length bs)) (recv bs s) = emit (EvWrite bs) (recv bs s).
Proof.
  intros Hc. pose proof (complete_length bs Hc) as Hl.
  apply andb_true_iff in Hc as [Ht _].
  unfold send_frame.
  assert (Hend : load (Z.of_nat (length bs) - 1) (recv bs s) = FRAME_END).
  { rewrite load_recv.
    replace (Z.to_nat (Z.of_nat (length bs) - 1)) with (length bs - 1)%nat by lia.
    by apply terminated_last. }
  assert (Hst : store (Z.of_nat (length bs) - 1) FRAME_END (recv bs s)
                = recv bs s).
  { rewrite <- Hend at 1. apply store_same; [unfold FRAME_SIZE; lia |].
    unfold recv. cbn [frame set_frame]. rewrite length_app. lia. }
  rewrite Hst, Nat2Z.id. unfold recv at 1. cbn [frame set_frame].
  by rewrite take_app_length.
Qed.

Lemma valid_preamble_loads (bs : list Z) (s : state) :
  valid_preamble bs = true ->
  load 0 (recv bs s) = FRAME_PRE /\ load 1 (recv bs s) = FRAME_PRE.
Proof.
  intros [H0 H1]%andb_true_iff. rewrite !load_recv.
  split; by apply Z.eqb_eq.
Qed.

(** A loop iteration on a complete frame with a valid preamble: the
    frame is read, echoed, readdressed and dispatched. *)
Lemma cat_thread_step (n : nat) (bs : list Z) (rest : list (option Z))
    (s : state) :
  complete bs = true -> valid_preamble bs = true ->
  cat_thread (S n) (feed bs ++ rest) s
  = cat_thread n rest
      (frame_dispatch (Z.of_nat (length bs))
         (prepare_answer (emit (EvWrite bs) (recv bs s)))).
Proof.
  intros Hc Hp. cbn [cat_thread]. rewrite frame_get_complete by done.
  assert (Hge : (Z.of_nat (length bs) >=? 0) = true) by (apply Z.geb_le; lia).
  rewrite Hge. unfold frame_parse.
  destruct (valid_preamble_loads bs s Hp) as [-> ->].
  rewrite Z.eqb_refl. cbn [negb andb].
  by rewrite send_frame_recv.
Qed.

Lemma cat_thread_frame (bs : list Z) (rest : list (option Z)) (s : state) :
  complete bs = true -> valid_preamble bs = true ->
  cat_thread 1 (feed bs ++ rest) s
  = frame_dispatch (Z.of_nat (length bs))
      (prepare_answer (emit (EvWrite bs) (recv bs s))).
Proof. intros Hc Hp. by rewrite cat_thread_step. Qed.

Lemma frame_echoed (bs : list Z) (rest : list (option Z)) (s : state) :
  complete bs = true -> valid_preamble bs = true ->
  exists evs,
    trace (cat_thread 1 (feed bs ++ rest) s) = trace s ++ EvWrite bs :: evs.
Proof.
  intros Hc Hp. rewrite cat_thread_frame by done.
  destruct (extends_frame_dispatch (Z.of_nat (length bs))
              (emit (EvWrite bs) (recv bs s))
              (prepare_answer (emit (EvWrite bs) (recv bs s)))) as [evs Hevs].
  - unfold prepare_answer. eauto with cat_trace.
  - exists evs. rewrite Hevs. cbn [trace emit recv set_frame].
    by rewrite <- app_assoc.
Qed.

(** C2. A complete, terminated inbound frame with a valid preamble is
    first written back byte for byte; whatever the dispatcher writes or
    does for it comes after that echo. *)
Theorem echo_first (bs : list Z) (rest : list (option Z)) (s : state) :
  complete bs = true -> valid_preamble bs = true ->
  exists evs,
    trace (cat_thread 1 (feed bs ++ rest) s) = trace s ++ EvWrite bs :: evs.
Proof. apply frame_echoed. Qed.

Lemma echo_first_witness :
  exists evs,
    trace (cat_thread 1 (feed rd_freq_request ++ []) state0)
    = trace state0 ++ EvWrite rd_freq_request :: evs.
Proof. apply (echo_first rd_freq_request [] state0); reflexivity. Defined.

(** The first six bytes of a complete frame whose opcode byte is set. *)
Lemma frame_shape (bs : list Z) :
  complete bs = true -> nth 4 bs 0 <> 0 -> nth 4 bs 0 <> FRAME_END ->
  exists b0 b1 b2 b3 b4 b5 tl, bs = b0 :: b1 :: b2 :: b3 :: b4 :: b5 :: tl.
Proof.
  intros [Ht _]%andb_true_iff H0 Hend.
  pose proof (terminated_nth_lt bs 4 Ht H0 Hend) as Hl.
  destruct bs as [| b0 [| b1 [| b2 [| b3 [| b4 [| b5 tl]]]]]];
    simpl in Hl; try lia.
  by exists b0, b1, b2, b3, b4, b5, tl.
Qed.

(** The reply buffer after the echo: the sender's address moved to the
    destination field, 0xA4 in the source field. *)
Lemma prepare_answer_echo (b0 b1 b2 b3 : Z) (tl : list Z) (e : event)
    (s : state) :
  prepare_answer (emit e (set_frame (b0 :: b1 :: b2 :: b3 :: tl) s))
  = State (b0 :: b1 :: b3 :: 0xA4 :: tl) (oob s) (rig s) (indet s)
          (trace s ++ [e]).
Proof. reflexivity. Qed.

(** One loop iteration on a complete frame that carries an opcode: the
    dispatcher runs on the readdressed buffer, after the echo. *)
Lemma cat_thread_opcode (bs : list Z) (rest : list (option Z)) (s : state) :
  complete bs = true -> valid_preamble bs = true ->
  nth 4 bs 0 <> 0 -> nth 4 bs 0 <> FRAME_END ->
  exists b2 b3 b4 b5 tl pad,
    bs = FRAME_PRE :: FRAME_PRE :: b2 :: b3 :: b4 :: b5 :: tl /\
    cat_thread 1 (feed bs ++ rest) s
    = frame_dispatch (Z.of_nat (length bs))
        (State (FRAME_PRE :: FRAME_PRE :: b3 :: 0xA4 :: b4 :: b5 :: tl ++ pad)
               (oob s) (rig s) (indet s) (trace s ++ [EvWrite bs])).
Proof.
  intros Hc Hp H0 Hend. rewrite cat_thread_frame by done.
  destruct (frame_shape bs Hc H0 Hend)
    as (b0 & b1 & b2 & b3 & b4 & b5 & tl & ->).
  apply andb_true_iff in Hp as [E0%Z.eqb_eq E1%Z.eqb_eq].
  cbn [nth] in E0, E1. subst b0 b1.
  exists b2, b3, b4, b5, tl. eexists. split; [done |].
  unfold recv. cbn [app]. by rewrite prepare_answer_echo.
Qed.

(** C5. A well-formed select-VFO frame whose selector is neither VFO A
    nor VFO B is echoed and answered with the failure code; the radio is
    left as it was and no call into it is made. *)
Theorem select_vfo_invalid (bs : list Z) (rest : list (option Z)) (s : state) :
  complete bs = true -> valid_preamble bs = true ->
  nth 4 bs 0 = C_SET_VFO ->
  nth 5 bs 0 <> S_VFOA -> nth 5 bs 0 <> S_VFOB ->
  let s' := cat_thread 1 (feed bs ++ rest) s in
  trace s'
  = trace s ++ [EvWrite bs;
                EvWrite [FRAME_PRE; FRAME_PRE; nth 3 bs 0; 0xA4; CODE_NG;
                         FRAME_END]]
  /\ rig s' = rig s.
Proof.
  intros Hc Hp H4 Ha Hb.
  destruct (cat_thread_opcode bs rest s Hc Hp)
    as (b2 & b3 & b4 & b5 & tl & pad & E & ->); [by rewrite H4 ..|].
  rewrite E in H4, Ha, Hb |- *. cbn [nth] in H4, Ha, Hb |- *. subst b4.
  apply Z.eqb_neq in Ha, Hb.
  unfold frame_dispatch, set_vfo, load. simpl. rewrite Ha, Hb. simpl.
  by rewrite <- app_assoc.
Qed.

Lemma select_vfo_invalid_witness :
  let bs := [0xFE; 0xFE; 0xA4; 0xE0; 0x07; 0x02; 0xFD] in
  let s' := cat_thread 1 (feed bs ++ []) state0 in
  trace s'
  = trace state0 ++ [EvWrite bs;
                     EvWrite [FRAME_PRE; FRAME_PRE; nth 3 bs 0; 0xA4; CODE_NG;
                              FRAME_END]]
  /\ rig s' = rig state0.
Proof.
  apply (select_vfo_invalid [0xFE; 0xFE; 0xA4; 0xE0; 0x07; 0x02; 0xFD] []
           state0); [reflexivity | reflexivity | reflexivity | | ];
    unfold S_VFOA, S_VFOB; simpl; lia.
Defined.

(** C10. A well-formed transmit-control frame whose first payload byte is
    not the sub-selector 0x00 is echoed and nothing else: no reply is
    written, no call is made, the radio is left as it was. *)
Theorem ptt_other_subcommand (bs : list Z) (rest : list (option Z))
    (s : state) :
  complete bs = true -> valid_preamble bs = true ->
  nth 4 bs 0 = C_CTL_PTT -> nth 5 bs 0 <> 0x00 ->
  let s' := cat_thread 1 (feed bs ++ rest) s in
  trace s' = trace s ++ [EvWrite bs] /\ rig s' = rig s.
Proof.
  intros Hc Hp H4 H5.
  destruct (cat_thread_opcode bs rest s Hc Hp)
    as (b2 & b3 & b4 & b5 & tl & pad & E & ->); [by rewrite H4 ..|].
  rewrite E in H4, H5 |- *. cbn [nth] in H4, H5. subst b4.
  apply Z.eqb_neq in H5.
  unfold frame_dispatch, load. simpl. by rewrite H5.
Qed.

Lemma ptt_other_subcommand_witness :
  let bs := [0xFE; 0xFE; 0xA4; 0xE0; 0x1C; 0x01; 0xFD] in
  let s' := cat_thread 1 (feed bs ++ []) state0 in
  trace s' = trace state0 ++ [EvWrite bs] /\ rig s' = rig state0.
Proof.
  apply (ptt_other_subcommand [0xFE; 0xFE; 0xA4; 0xE0; 0x1C; 0x01; 0xFD] []
           state0); [reflexivity | reflexivity | reflexivity | simpl; lia].
Defined.

(** *** Read frequency *)

Lemma frame_dispatch_rd_freq (len : Z) (s : state) :
  load 4 s = C_RD_FREQ ->
  frame_dispatch len s
  = send_frame 11
      (store_list 5
         (to_bcd (freq (vfo_x (params_band (rig s)) (active_vfo s))) 10) s).
Proof. unfold frame_dispatch. by intros ->. Qed.

Lemma to_bcd_10 (v : Z) :
  exists c0 c1 c2 c3 c4, to_bcd v 10 = [c0; c1; c2; c3; c4].
Proof. unfold to_bcd. simpl. eauto 6. Qed.

(** C4, as the specification states it, fails: the reply to the
    read-frequency request [FE FE 00 A4 03 FD] does not begin
    [FE FE A4 00 03]; and with VFO A at 12345678901 Hz its BCD field
    decodes to 2345678901. *)
Lemma rd_freq_reply_counterexample :
  (~ exists payload,
       trace (cat_thread 1 (feed rd_freq_request) state0)
       = [EvWrite rd_freq_request;
          EvWrite ([0xFE; 0xFE; 0xA4; 0x00; 0x03] ++ payload ++ [0xFD])])
  /\ trace (cat_thread 1 (feed rd_freq_request) state_11_digits)
     = [EvWrite rd_freq_request;
        EvWrite ([0xFE; 0xFE; 0xA4; 0xA4; 0x03]
                   ++ [0x01; 0x89; 0x67; 0x45; 0x23] ++ [0xFD])]
  /\ from_bcd [0x01; 0x89; 0x67; 0x45; 0x23] 10 = 2345678901.
Proof.
  split; [| split; reflexivity].
  intros [payload H]. vm_compute in H. discriminate H.
Qed.

(** C4, amended. The reply to the read-frequency request
    [FE FE 00 A4 03 FD], written after the echo, is 11 bytes long, begins
    [FE FE A4 A4 03] (the sender's address 0xA4 as destination, the fixed
    local address 0xA4 as source), continues with 5 packed-BCD bytes that
    decode to the active VFO's frequency modulo 10^10 (the frequency
    itself when it is below 10^10 Hz) and ends with the terminator. *)
Theorem rd_freq_reply (rest : list (option Z)) (s : state) :
  let f := freq (vfo_x (params_band (rig s)) (active_vfo s)) in
  0 <= f ->
  let bcd := to_bcd f 10 in
  let reply := [0xFE; 0xFE; 0xA4; 0xA4; 0x03] ++ bcd ++ [0xFD] in
  trace (cat_thread 1 (feed rd_freq_request ++ rest) s)
  = trace s ++ [EvWrite rd_freq_request; EvWrite reply]
  /\ length reply = 11%nat
  /\ length bcd = 5%nat
  /\ from_bcd bcd 10 = f mod 10 ^ 10
  /\ (f < 10 ^ 10 -> from_bcd bcd 10 = f).
Proof.
  intros f Hf bcd reply. subst reply bcd.
  rewrite cat_thread_frame by reflexivity.
  rewrite frame_dispatch_rd_freq by reflexivity.
  change (freq _) with f.
  destruct (bcd_codec_10 f Hf) as (Hlen & Hdec & Hsmall).
  split; [| split; [| split; [| split]]];
    [| by cbn [length app]; rewrite length_app, Hlen | done | done | done].
  destruct (to_bcd_10 f) as (c0 & c1 & c2 & c3 & c4 & ->).
  simpl. by rewrite <- app_assoc.
Qed.

Lemma rd_freq_reply_witness :
  let bcd := to_bcd 14074000 10 in
  let reply := [0xFE; 0xFE; 0xA4; 0xA4; 0x03] ++ bcd ++ [0xFD] in
  trace (cat_thread 1 (feed rd_freq_request ++ []) state0)
  = trace state0 ++ [EvWrite rd_freq_request; EvWrite reply]
  /\ length reply = 11%nat
  /\ length bcd = 5%nat
  /\ from_bcd bcd 10 = 14074000 mod 10 ^ 10
  /\ (14074000 < 10 ^ 10 -> from_bcd bcd 10 = 14074000).
Proof. apply (rd_freq_reply [] state0). simpl. lia. Defined.

(** *** Selected-VFO frequency *)

Lemma store_trace (i v : Z) (s : state) : trace (store i v s) = trace s.
Proof. unfold store. by destruct (_ && _). Qed.

Lemma rig_store (i v : Z) (s : state) : rig (store i v s) = rig s.
Proof. unfold store. by destruct (_ && _). Qed.

Lemma rig_send_frame (len : Z) (s : state) : rig (send_frame len s) = rig s.
Proof. unfold send_frame. cbn [rig emit]. apply rig_store. Qed.

Lemma rig_send_code (code : Z) (s : state) : rig (send_code code s) = rig s.
Proof. unfold send_code. by rewrite rig_send_frame, rig_store. Qed.

Lemma frame_dispatch_sel_freq_query (len : Z) (s : state) :
  load 4 s = C_SEND_SEL_FREQ -> load 6 s = FRAME_END ->
  frame_dispatch len s
  = send_frame 12
      (store_list 6
         (to_bcd (freq (vfo_x (params_band (rig s))
                          (if load 5 s =? 0x00 then X6100_VFO_A
                           else X6100_VFO_B))) 10) s).
Proof.
  intros H4 H6. unfold frame_dispatch. rewrite H4, H6.
  by destruct (load 5 s =? 0).
Qed.

(** The set form stores the decoded frequency in the selected slot; the
    live update of the active VFO writes the same value. *)
Lemma frame_dispatch_sel_freq_set (len : Z) (s : state) :
  load 4 s = C_SEND_SEL_FREQ -> load 6 s <> FRAME_END ->
  freq (vfo_x (params_band (rig (frame_dispatch len s)))
          (if load 5 s =? 0x00 then X6100_VFO_A else X6100_VFO_B))
  = from_bcd (load_list 6 5 s) 10.
Proof.
  intros H4 H6%Z.eqb_neq. unfold frame_dispatch. rewrite H4, H6.
  change (C_SEND_SEL_FREQ =? C_RD_FREQ) with false.
  change (C_SEND_SEL_FREQ =? C_RD_MODE) with false.
  change (C_SEND_SEL_FREQ =? C_SET_FREQ) with false.
  change (C_SEND_SEL_FREQ =? C_SET_MODE) with false.
  change (C_SEND_SEL_FREQ =? C_CTL_PTT) with false.
  change (C_SEND_SEL_FREQ =? C_SET_VFO) with false.
  change (C_SEND_SEL_FREQ =? C_SEND_SEL_FREQ) with true.
  cbv iota. rewrite rig_send_code.
  generalize (from_bcd (load_list 6 5 s) 10). intros f.
  destruct s as [fr o [[a va vb] fb rs bf] ind tr].
  unfold set_freq, params_bands_find.
  destruct (load 5 _ =? 0), a; cbn; try reflexivity;
    destruct (bf f); reflexivity.
Qed.

(** Packed BCD digits never look like the terminator. *)
Lemma to_bcd_unterminated (n : nat) (v : Z) :
  unterminated (to_bcd_bytes n v) = true.
Proof.
  revert v. induction n as [| n IH]; intros v; [done |].
  cbn [to_bcd_bytes unterminated forallb]. apply andb_true_iff. split.
  - apply negb_true_iff, Z.eqb_neq, nibbles_bound; apply Z.mod_pos_bound; lia.
  - apply IH.
Qed.

Lemma terminated_snoc (pre : list Z) :
  unterminated pre = true -> terminated (pre ++ [FRAME_END]) = true.
Proof.
  induction pre as [| b pre IH]; [done |].
  intros [Hb Hu]%andb_true_iff. specialize (IH Hu).
  cbn [app terminated]. destruct (pre ++ [FRAME_END]) eqn:E.
  - by destruct pre.
  - by rewrite Hb, IH.
Qed.

Lemma sel_freq_header_unterminated (dst src sel : Z) :
  dst <> FRAME_END -> src <> FRAME_END -> sel <> FRAME_END ->
  unterminated [FRAME_PRE; FRAME_PRE; dst; src; C_SEND_SEL_FREQ; sel] = true.
Proof.
  intros Hd%Z.eqb_neq Hs%Z.eqb_neq Hv%Z.eqb_neq.
  cbn [unterminated forallb]. by rewrite Hd, Hs, Hv.
Qed.

(** The query form answers with the stored frequency of the selected
    slot. *)
Lemma sel_freq_query (dst src sel : Z) (rest : list (option Z)) (s : state) :
  dst <> FRAME_END -> src <> FRAME_END -> sel <> FRAME_END ->
  let query := [FRAME_PRE; FRAME_PRE; dst; src; C_SEND_SEL_FREQ; sel;
                FRAME_END] in
  let f := freq (vfo_x (params_band (rig s))
                   (if sel =? 0x00 then X6100_VFO_A else X6100_VFO_B)) in
  trace (cat_thread 1 (feed query ++ rest) s)
  = trace s ++ [EvWrite query;
                EvWrite ([FRAME_PRE; FRAME_PRE; src; 0xA4; C_SEND_SEL_FREQ; sel]
                           ++ to_bcd f 10 ++ [FRAME_END])].
Proof.
  intros Hd Hs Hv query f.
  assert (Hc : complete query = true).
  { apply andb_true_iff. split; [| done].
    apply (terminated_snoc [FRAME_PRE; FRAME_PRE; dst; src; C_SEND_SEL_FREQ; sel]).
    by apply sel_freq_header_unterminated. }
  rewrite cat_thread_frame by done.
  unfold recv, query. cbn [app]. rewrite prepare_answer_echo.
  rewrite frame_dispatch_sel_freq_query by reflexivity.
  change (freq _) with f.
  destruct (to_bcd_10 f) as (c0 & c1 & c2 & c3 & c4 & ->).
  simpl. by rewrite <- app_assoc.
Qed.

(** C6. A set-form frame of the selected-VFO-frequency opcode followed by
    the query form for the same selector: the query reply carries a BCD
    field that decodes to the value just set, for every value of at most
    10 decimal digits. *)
Theorem sel_freq_set_then_query (dst src sel v : Z)
    (rest : list (option Z)) (s : state) :
  dst <> FRAME_END -> src <> FRAME_END -> sel <> FRAME_END ->
  0 <= v < 10 ^ 10 ->
  let header := [FRAME_PRE; FRAME_PRE; dst; src; C_SEND_SEL_FREQ; sel] in
  let set_form := header ++ to_bcd v 10 ++ [FRAME_END] in
  let query := header ++ [FRAME_END] in
  exists evs bcd,
    trace (cat_thread 2 (feed (set_form ++ query) ++ rest) s)
    = trace s ++ EvWrite set_form :: evs
        ++ [EvWrite query;
            EvWrite ([FRAME_PRE; FRAME_PRE; src; 0xA4; C_SEND_SEL_FREQ; sel]
                       ++ bcd ++ [FRAME_END])]
    /\ length bcd = 5%nat
    /\ from_bcd bcd 10 = v.
Proof.
  intros Hd Hs Hv [Hv0 Hv10] header set_form query.
  destruct (bcd_codec_10 v Hv0) as (Hlen & _ & Hdec). specialize (Hdec Hv10).
  assert (Hbcd : unterminated (to_bcd v 10) = true)
    by apply to_bcd_unterminated.
  assert (Hc : complete set_form = true).
  { apply andb_true_iff. split.
    - unfold set_form. rewrite app_assoc. apply terminated_snoc.
      unfold unterminated. rewrite forallb_app. apply andb_true_iff.
      split; [by apply sel_freq_header_unterminated | done].
    - unfold set_form. rewrite !length_app, Hlen. done. }
  assert (Hp : valid_preamble set_form = true) by reflexivity.
  unfold feed. rewrite map_app, <- app_assoc. fold (feed set_form) (feed query).
  rewrite cat_thread_step by done.
  set (s0 := prepare_answer (emit (EvWrite set_form) (recv set_form s))).
  set (s1 := frame_dispatch (Z.of_nat (length set_form)) s0).
  change query
    with [FRAME_PRE; FRAME_PRE; dst; src; C_SEND_SEL_FREQ; sel; FRAME_END].
  rewrite (sel_freq_query dst src sel rest s1) by done.
  destruct (extends_frame_dispatch (Z.of_nat (length set_form)) s0 s0)
    as [evs Hevs]; [apply extends_refl |]. fold s1 in Hevs.
  exists evs, (to_bcd v 10). split; [| done].
  rewrite Hevs.
  assert (Hf : freq (vfo_x (params_band (rig s1))
                       (if sel =? 0x00 then X6100_VFO_A else X6100_VFO_B))
               = v).
  { subst s1 s0. unfold set_form, recv in *.
    destruct (to_bcd_10 v) as (c0 & c1 & c2 & c3 & c4 & E). rewrite E in *.
    cbn [app header]. rewrite prepare_answer_echo.
    apply andb_true_iff in Hbcd as [H0%negb_true_iff%Z.eqb_neq _].
    rewrite <- Hdec.
    match goal with
    | |- context [frame_dispatch ?len ?st] =>
        exact (frame_dispatch_sel_freq_set len st eq_refl H0)
    end. }
  rewrite Hf. subst s0. unfold prepare_answer.
  rewrite !store_trace. cbn [trace emit recv set_frame].
  by rewrite <- !app_assoc.
Qed.

Lemma sel_freq_set_then_query_witness :
  let header := [FRAME_PRE; FRAME_PRE; 0xA4; 0xE0; C_SEND_SEL_FREQ; 0x01] in
  let set_form := header ++ to_bcd 1234567890 10 ++ [FRAME_END] in
  let query := header ++ [FRAME_END] in
  exists evs bcd,
    trace (cat_thread 2 (feed (set_form ++ query) ++ []) state0)
    = trace state0 ++ EvWrite set_form :: evs
        ++ [EvWrite query;
            EvWrite ([FRAME_PRE; FRAME_PRE; 0xE0; 0xA4; C_SEND_SEL_FREQ; 0x01]
                       ++ bcd ++ [FRAME_END])]
    /\ length bcd = 5%nat
    /\ from_bcd bcd 10 = 1234567890.
Proof.
  apply (sel_freq_set_then_query 0xA4 0xE0 0x01 1234567890 [] state0);
    unfold FRAME_END; simpl; lia.
Defined.

(** *** The preamble test *)

(** A frame is dropped, with a log line and nothing else, when neither
    of its first two bytes is the preamble byte. *)
Lemma frame_parse_rejects (len : Z) (s : state) :
  load 0 s <> FRAME_PRE -> load 1 s <> FRAME_PRE ->
  frame_parse len s = emit (EvLogError "Incorrect frame") s.
Proof.
  intros H0%Z.eqb_neq H1%Z.eqb_neq. unfold frame_parse. by rewrite H0, H1.
Qed.

Lemma sent_app (tr1 tr2 : list event) :
  sent (tr1 ++ tr2) = sent tr1 ++ sent tr2.
Proof.
  induction tr1 as [| e tr1 IH]; [done |].
  destruct e; cbn [app sent]; rewrite IH; by rewrite ?app_assoc.
Qed.

(** Such a frame puts no byte on the line and leaves the radio alone. *)
Lemma frame_parse_rejects_silent (len : Z) (s : state) :
  load 0 s <> FRAME_PRE -> load 1 s <> FRAME_PRE ->
  sent (trace (frame_parse len s)) = sent (trace s) /\
  rig (frame_parse len s) = rig s.
Proof.
  intros H0 H1. rewrite frame_parse_rejects by done.
  cbn [trace rig emit]. rewrite sent_app. cbn [sent]. by rewrite app_nil_r.
Qed.

(** One preamble byte in either position is enough to pass the test. *)
Lemma frame_parse_accepts (len : Z) (s : state) :
  load 0 s = FRAME_PRE \/ load 1 s = FRAME_PRE ->
  frame_parse len s = frame_dispatch len (prepare_answer (send_frame len s)).
Proof.
  unfold frame_parse.
  intros [H | H]; rewrite H, Z.eqb_refl; cbn [negb andb];
    [done | by rewrite andb_false_r].
Qed.

(** C1, at a failing input. The frame [FE 00 A4 E0 03 FD] has no valid
    preamble, yet it is echoed and answered with the frequency; the
    frame [00 FE A4 E0 07 01 FD] has none either, yet it makes VFO B the
    active VFO. *)
Theorem half_preamble_accepted :
  valid_preamble half_preamble_request = false /\
  trace (cat_thread 1 (feed half_preamble_request) state0)
  = [EvWrite half_preamble_request;
     EvWrite [0xFE; 0x00; 0xE0; 0xA4; 0x03; 0x00; 0x40; 0x07; 0x14; 0x00; 0xFD]]
  /\ valid_preamble half_preamble_set_vfo = false
  /\ active_vfo state0 = X6100_VFO_A
  /\ active_vfo (cat_thread 1 (feed half_preamble_set_vfo) state0)
     = X6100_VFO_B.
Proof. repeat split; reflexivity. Qed.

(** *** The protocol loop *)

Lemma frame_get_loop_nonneg (inp : list (option Z)) :
  forall (len : Z) (s : state) (l : Z) (s1 : state) (r : list (option Z)),
    0 <= len -> frame_get_loop inp len s = Some (l, s1, r) -> 0 <= l.
Proof.
  induction inp as [| [c |] inp IH]; intros len s l s1 r Hlen; simpl;
    [done | | by apply IH].
  destruct (c =? FRAME_END); [intros [= <- _ _]; lia |].
  destruct (len + 1 >=? FRAME_SIZE); [by intros [= <- _ _] |].
  apply IH. lia.
Qed.

(** The guard [len >= 0] of the loop never fails: every frame that
    [frame_get] returns, the empty one included, reaches [frame_parse]. *)
Lemma cat_thread_unfold (n : nat) (inp : list (option Z)) (s : state) :
  cat_thread (S n) inp s
  = match frame_get inp s with
    | None => s
    | Some (len, s1, inp') => cat_thread n inp' (frame_parse len s1)
    end.
Proof.
  cbn [cat_thread]. destruct (frame_get inp s) as [[[len s1] inp'] |] eqn:E;
    [| done].
  apply frame_get_loop_nonneg in E; [| done].
  apply Z.geb_le in E. by rewrite E.
Qed.

(** C7, at a failing input. 256 bytes without a terminator that start
    [FE FE A4 E0 03]: [frame_get] returns 0, and the loop still calls the
    dispatcher, which stores the terminator one byte before the buffer,
    issues an empty write and then writes the 11-byte frequency
    reply. *)
Theorem overlong_frame_answered :
  length overlong_rd_freq = 256%nat /\
  unterminated overlong_rd_freq = true /\
  frame_get (feed overlong_rd_freq) state0
  = Some (0, recv overlong_rd_freq state0, []) /\
  trace (cat_thread 1 (feed overlong_rd_freq) state0)
  = [EvWrite [];
     EvWrite [0xFE; 0xFE; 0xE0; 0xA4; 0x03; 0x00; 0x40; 0x07; 0x14; 0x00; 0xFD]]
  /\ oob (cat_thread 1 (feed overlong_rd_freq) state0) = true.
Proof. repeat split; vm_compute; reflexivity. Qed.

(** C8, at a failing input. 256 bytes without a terminator that start
    [FE FE A4 E0 07 01]: [frame_get] returns the empty result, and the
    loop runs the dispatcher on it all the same; VFO B becomes the
    active VFO and a success reply is written. *)
Theorem empty_frame_dispatched :
  frame_get (feed overlong_set_vfo) state0
  = Some (0, recv overlong_set_vfo state0, []) /\
  cat_thread 1 (feed overlong_set_vfo) state0
  = frame_parse 0 (recv overlong_set_vfo state0) /\
  active_vfo state0 = X6100_VFO_A /\
  active_vfo (cat_thread 1 (feed overlong_set_vfo) state0) = X6100_VFO_B /\
  trace (cat_thread 1 (feed overlong_set_vfo) state0)
  = [EvWrite []; EvRadioSetVfo X6100_VFO_B; EvScreenUpdate;
     EvWrite [0xFE; 0xFE; 0xE0; 0xA4; 0xFB; 0xFD]].
Proof. repeat split; vm_compute; reflexivity. Qed.

(** ** Stores stay inside the buffer *)

Lemma oob_store (i v : Z) (s : state) :
  0 <= i < FRAME_SIZE -> oob (store i v s) = oob s.
Proof. intros H. by rewrite store_in. Qed.

Lemma oob_set_freq (f : Z) (s : state) : oob (set_freq f s) = oob s.
Proof.
  unfold set_freq, params_bands_find. by destruct (bands_find (rig s) f).
Qed.

Lemma oob_frame_dispatch (len : Z) (s : state) :
  oob (frame_dispatch len s) = oob s.
Proof.
  unfold frame_dispatch, set_vfo.
  repeat case_match; simplify_eq;
    repeat match goal with
      | |- context [to_bcd ?f 10] =>
          let E := fresh in
          destruct (to_bcd_10 f) as (? & ? & ? & ? & ? & E); rewrite E
      end;
    unfold send_code, send_frame; cbn [oob emit store_list];
    rewrite ?oob_store by (unfold FRAME_SIZE; lia);
    cbn [oob event_send_screen_update emit radio_set_mode radio_set_ptt
         radio_set_vfo set_rig assign_freq];
    rewrite ?oob_set_freq; try reflexivity.
Qed.

(** For a frame of 1 to 256 bytes the dispatcher never stores outside
    the buffer. *)
Lemma oob_frame_parse (len : Z) (s : state) :
  1 <= len <= FRAME_SIZE -> oob (frame_parse len s) = oob s.
Proof.
  intros Hlen. unfold frame_parse. case_match; [done |].
  rewrite oob_frame_dispatch. unfold prepare_answer, send_frame.
  rewrite !oob_store by (unfold FRAME_SIZE in *; lia).
  cbn [oob emit]. apply oob_store. lia.
Qed.

(** * Further properties of cat.c *)

(** ** The frame reader *)

(** X1. [frame_get] returns as soon as the terminator has been read: the
    length counts the terminator, the buffer holds the frame followed by
    zeros, the reads after the terminator are left for the next call,
    and nothing else of the state changes. A frame of exactly 256 bytes
    is still accepted. *)
Theorem frame_get_frame (bs : list Z) (rest : list (option Z)) (s : state) :
  complete bs = true ->
  frame_get (feed bs ++ rest) s = Some (Z.of_nat (length bs), recv bs s, rest).
Proof. apply frame_get_complete. Qed.

Lemma frame_get_frame_witness :
  frame_get (feed rd_freq_request ++ [Some 0xFE]) state0
  = Some (Z.of_nat (length rd_freq_request), recv rd_freq_request state0,
          [Some 0xFE]).
Proof. apply (frame_get_frame rd_freq_request [Some 0xFE] state0). reflexivity. Defined.

(** X2. After 256 bytes without a terminator [frame_get] gives up: it
    returns 0, has consumed exactly those 256 bytes and leaves them in
    the buffer. *)
Theorem frame_get_gives_up (bs : list Z) (rest : list (option Z)) (s : state) :
  length bs = 256%nat -> unterminated bs = true ->
  frame_get (feed bs ++ rest) s = Some (0, recv bs s, rest).
Proof. apply frame_get_overflow. Qed.

Lemma frame_get_gives_up_witness :
  frame_get (feed overlong_rd_freq ++ [Some 0xFD]) state0
  = Some (0, recv overlong_rd_freq state0, [Some 0xFD]).
Proof.
  apply (frame_get_gives_up overlong_rd_freq [Some 0xFD] state0); reflexivity.
Defined.

Lemma load_store_same (i v : Z) (s : state) :
  0 <= i < FRAME_SIZE -> (Z.to_nat i < length (frame s))%nat ->
  load i (store i v s) = v.
Proof.
  intros Hi Hl. rewrite store_in by done. unfold load, set_frame. cbn [frame].
  apply nth_lookup_Some. by apply list_lookup_insert_eq.
Qed.

Lemma frame_get_loop_inv (inp : list (option Z)) :
  forall (len : Z) (s : state) (l : Z) (s1 : state) (r : list (option Z)),
    0 <= len < FRAME_SIZE -> length (frame s) = 256%nat ->
    frame_get_loop inp len s = Some (l, s1, r) ->
    (l = 0 \/ (len < l <= FRAME_SIZE /\ load (l - 1) s1 = FRAME_END))
    /\ length (frame s1) = 256%nat
    /\ rig s1 = rig s /\ trace s1 = trace s /\ oob s1 = oob s
    /\ (length r < length inp)%nat.
Proof.
  induction inp as [| [c |] inp IH]; intros len s l s1 r Hlen Hf; simpl;
    [done | |].
  - assert (Hst : store len c s = set_frame (<[Z.to_nat len := c]> (frame s)) s)
      by (by apply store_in).
    assert (Hl : length (frame (store len c s)) = 256%nat)
      by (rewrite Hst; cbn [frame set_frame]; by rewrite length_insert).
    assert (Hk : rig (store len c s) = rig s /\ trace (store len c s) = trace s
                 /\ oob (store len c s) = oob s) by (by rewrite Hst).
    destruct Hk as (Hk1 & Hk2 & Hk3).
    destruct (Z.eqb_spec c FRAME_END) as [-> | Hc].
    + intros [= <- <- <-].
      split; [| split; [done | split; [done | split; [done | split; [done |]]]]];
        [| cbn [length]; lia].
      right. split; [unfold FRAME_SIZE in *; lia |].
      replace (len + 1 - 1) with len by lia.
      apply load_store_same; [done |]. unfold FRAME_SIZE in *. lia.
    + destruct (len + 1 >=? FRAME_SIZE) eqn:Hge.
      * intros [= <- <- <-].
        split; [by left |].
        split; [done | split; [done | split; [done | split; [done |]]]].
        cbn [length]. lia.
      * intros H. apply IH in H; [| unfold FRAME_SIZE in *; lia | done].
        destruct H as (H1 & H2 & H3 & H4 & H5 & H6).
        rewrite Hk1 in H3. rewrite Hk2 in H4. rewrite Hk3 in H5.
        split; [| split; [done | split; [done | split; [done | split; [done |]]]]];
          [| cbn [length]; lia].
        destruct H1 as [-> | [Hr He]]; [by left | right; split; [lia | done]].
  - intros H. apply IH in H; [| done | done].
    destruct H as (H1 & H2 & H3 & H4 & H5 & H6).
    split; [done |].
    split; [done | split; [done | split; [done | split; [done |]]]].
    cbn [length]. lia.
Qed.

(** X3. Whatever the reads, a result of [frame_get] is 0 or a length
    between 1 and 256 whose last buffered byte is the terminator; the
    buffer keeps its 256 bytes, no store falls outside it, at least one
    read is consumed, and neither the radio nor the serial line is
    touched. *)
Theorem frame_get_result (inp r : list (option Z)) (s s1 : state) (l : Z) :
  frame_get inp s = Some (l, s1, r) ->
  (l = 0 \/ (1 <= l <= FRAME_SIZE /\ load (l - 1) s1 = FRAME_END))
  /\ length (frame s1) = 256%nat
  /\ rig s1 = rig s /\ trace s1 = trace s /\ oob s1 = oob s
  /\ (length r < length inp)%nat.
Proof.
  unfold frame_get. intros H.
  apply frame_get_loop_inv in H; [| done | done].
  destruct H as (H1 & H2 & H3 & H4 & H5 & H6).
  split; [| by repeat (split; [done |])].
  destruct H1 as [-> | [Hr He]]; [by left | right; split; [lia | done]].
Qed.

Lemma frame_get_result_witness :
  (6 = 0 \/ (1 <= 6 <= FRAME_SIZE
             /\ load (6 - 1) (recv rd_freq_request state0) = FRAME_END))
  /\ length (frame (recv rd_freq_request state0)) = 256%nat
  /\ rig (recv rd_freq_request state0) = rig state0
  /\ trace (recv rd_freq_request state0) = trace state0
  /\ oob (recv rd_freq_request state0) = oob state0
  /\ (length (@nil (option Z)) < length (feed rd_freq_request))%nat.
Proof.
  apply (frame_get_result (feed rd_freq_request) [] state0
           (recv rd_freq_request state0) 6).
  reflexivity.
Defined.




(** ** The protocol loop *)

(** X5. Reads that find no byte only delay the loop: any number of
    iterations ends in the same state as on the same bytes delivered
    without a pause. *)
Theorem polls_ignored (n : nat) (inp : list (option Z)) (s : state) :
  cat_thread n inp s = cat_thread n (feed (delivered inp)) s.
Proof. symmetry. apply cat_thread_polls. Qed.

(** X6. Frames are handled one at a time, in arrival order, and nothing
    is carried over in the reader: the loop on a complete frame followed
    by more input does to the first frame what it does to that frame
    alone, then goes on with the input behind it. *)
Theorem frames_in_order (n : nat) (bs : list Z) (rest : list (option Z))
    (s : state) :
  complete bs = true ->
  cat_thread (S n) (feed bs ++ rest) s
  = cat_thread n rest (cat_thread 1 (feed bs) s).
Proof.
  intros Hc. rewrite !cat_thread_unfold.
  rewrite <- (app_nil_r (feed bs)) at 2.
  by rewrite !frame_get_complete.
Qed.

Lemma frames_in_order_witness :
  cat_thread 2 (feed rd_freq_request ++ feed rd_freq_request) state0
  = cat_thread 1 (feed rd_freq_request)
      (cat_thread 1 (feed rd_freq_request) state0).
Proof.
  apply (frames_in_order 1 rd_freq_request (feed rd_freq_request) state0).
  reflexivity.
Defined.

(** ** The dispatcher, opcode by opcode *)

Lemma buffer_12 (f : list Z) :
  (12 <= length f)%nat ->
  exists b0 b1 b2 b3 b4 b5 b6 b7 b8 b9 b10 b11 tl,
    f = b0 :: b1 :: b2 :: b3 :: b4 :: b5 :: b6 :: b7 :: b8 :: b9 :: b10
          :: b11 :: tl.
Proof.
  intros H.
  do 12 (destruct f as [| ? f]; [simpl in H; lia |]).
  by repeat eexists.
Qed.

(** One loop iteration on any complete frame with a valid preamble, with
    the first twelve bytes of the reply buffer spelled out: bytes the
    frame does not have read as zero. *)
Lemma cat_thread_buffer (bs : list Z) (rest : list (option Z)) (s : state) :
  complete bs = true -> valid_preamble bs = true ->
  exists b2 b3 b4 b5 b6 b7 b8 b9 b10 b11 tl,
    (b2 = nth 2 bs 0 /\ b3 = nth 3 bs 0 /\ b4 = nth 4 bs 0 /\ b5 = nth 5 bs 0
     /\ b6 = nth 6 bs 0 /\ b7 = nth 7 bs 0 /\ b8 = nth 8 bs 0
     /\ b9 = nth 9 bs 0 /\ b10 = nth 10 bs 0 /\ b11 = nth 11 bs 0) /\
    cat_thread 1 (feed bs ++ rest) s
    = frame_dispatch (Z.of_nat (length bs))
        (State (FRAME_PRE :: FRAME_PRE :: b3 :: 0xA4 :: b4 :: b5 :: b6 :: b7
                  :: b8 :: b9 :: b10 :: b11 :: tl)
               (oob s) (rig s) (indet s) (trace s ++ [EvWrite bs])).
Proof.
  intros Hc Hp. rewrite cat_thread_frame by done.
  pose proof (complete_length bs Hc) as Hl.
  unfold recv.
  pose proof (fun i => nth_pad i bs (Z.to_nat FRAME_SIZE - length bs)) as Hn.
  destruct (buffer_12 (bs ++ replicate (Z.to_nat FRAME_SIZE - length bs) 0))
    as (b0 & b1 & b2 & b3 & b4 & b5 & b6 & b7 & b8 & b9 & b10 & b11 & tl & E).
  { rewrite length_app, length_replicate. unfold FRAME_SIZE. lia. }
  rewrite E in Hn |- *.
  apply andb_true_iff in Hp as [E0%Z.eqb_eq E1%Z.eqb_eq].
  rewrite <- (Hn 0%nat) in E0. rewrite <- (Hn 1%nat) in E1.
  cbn [nth] in E0, E1. subst b0 b1.
  exists b2, b3, b4, b5, b6, b7, b8, b9, b10, b11, tl.
  split; [| by rewrite prepare_answer_echo].
  repeat split; [exact (Hn 2%nat) | exact (Hn 3%nat) | exact (Hn 4%nat)
    | exact (Hn 5%nat) | exact (Hn 6%nat) | exact (Hn 7%nat) | exact (Hn 8%nat)
    | exact (Hn 9%nat) | exact (Hn 10%nat) | exact (Hn 11%nat)].
Qed.

(** Opens a goal about one loop iteration on the frame [bs]: the reply
    buffer becomes explicit and the bytes of [bs] get names. *)
Ltac open_frame bs rest s Hc Hp :=
  let E := fresh "E" in
  destruct (cat_thread_buffer bs rest s Hc Hp)
    as (?b2 & ?b3 & ?b4 & ?b5 & ?b6 & ?b7 & ?b8 & ?b9 & ?b10 & ?b11 & ?tl
        & E & ->);
  unfold payload5 in *; cbn [Nat.add] in *;
  repeat match type of E with
    | ?b = nth ?i bs 0 /\ _ =>
        let E1 := fresh "E" in
        destruct E as [E1 E]; rewrite <- ?E1 in *; clear E1
    | ?b = nth ?i bs 0 => rewrite <- ?E in *; clear E
    end.

(** Closes a goal that compares traces built by appending events. *)
Ltac trace_done :=
  rewrite <- ?app_assoc; cbn [app]; repeat split; reflexivity.

(** X7. An opcode outside the recognised set is logged and answered with
    the failure code in a 6-byte frame, whatever the length of the
    frame; the radio is left as it was and no call is made. *)
Theorem unknown_opcode_refused (bs : list Z) (rest : list (option Z))
    (s : state) :
  complete bs = true -> valid_preamble bs = true ->
  known_opcode (nth 4 bs 0) = false ->
  let s' := cat_thread 1 (feed bs ++ rest) s in
  trace s'
  = trace s ++ [EvWrite bs;
                EvLogWarn (nth 4 bs 0) (nth 5 bs 0) (Z.of_nat (length bs));
                EvWrite [FRAME_PRE; FRAME_PRE; nth 3 bs 0; 0xA4; CODE_NG;
                         FRAME_END]]
  /\ rig s' = rig s.
Proof.
  intros Hc Hp Hk. open_frame bs rest s Hc Hp.
  unfold known_opcode in Hk.
  repeat (apply orb_false_iff in Hk as [Hk ?]).
  unfold frame_dispatch, load. simpl.
  repeat match goal with H : (_ =? _) = false |- _ => rewrite H; clear H end.
  simpl. trace_done.
Qed.

Lemma unknown_opcode_refused_witness :
  let bs := [0xFE; 0xFE; 0xA4; 0xE0; 0x19; 0x00; 0xFD] in
  let s' := cat_thread 1 (feed bs ++ []) state0 in
  trace s'
  = trace state0 ++ [EvWrite bs;
                     EvLogWarn (nth 4 bs 0) (nth 5 bs 0) (Z.of_nat (length bs));
                     EvWrite [FRAME_PRE; FRAME_PRE; nth 3 bs 0; 0xA4; CODE_NG;
                              FRAME_END]]
  /\ rig s' = rig state0.
Proof.
  apply (unknown_opcode_refused [0xFE; 0xFE; 0xA4; 0xE0; 0x19; 0x00; 0xFD] []
           state0); reflexivity.
Defined.

Lemma x_mode_2_ci_mode_known (m : x6100_mode_t) :
  known_mode (x_mode_2_ci_mode m) = true.
Proof. by destruct m. Qed.

(** What the translator returns for a known wire code. *)
Lemma ci_mode_known (r : x6100_mode_t) (c : Z) (flag : option Z) :
  known_mode c = true ->
  x_mode_2_ci_mode (ci_mode_2_x_mode r c flag) = c /\
  x_mode_digital (ci_mode_2_x_mode r c flag)
  = ((c =? M_LSB) || (c =? M_USB))
    && match flag with Some d => negb (d =? 0) | None => false end.
Proof.
  unfold known_mode, ci_mode_2_x_mode. intros H.
  destruct (Z.eqb_spec c M_LSB) as [-> | _];
    [by destruct flag as [d |]; [destruct (d =? 0) |] |].
  destruct (Z.eqb_spec c M_USB) as [-> | _];
    [by destruct flag as [d |]; [destruct (d =? 0) |] |].
  destruct (Z.eqb_spec c M_AM) as [-> | _]; [done |].
  destruct (Z.eqb_spec c M_CW) as [-> | _]; [done |].
  destruct (Z.eqb_spec c M_NFM) as [-> | _]; [done |].
  destruct (Z.eqb_spec c M_CWR) as [-> | _]; [done |].
  discriminate H.
Qed.

(** *** Read mode *)

(** X8. The read-mode reply is 8 bytes long and carries the wire code of
    the active VFO's mode twice, in bytes 5 and 6; that code is always
    one of the six known wire codes, and the radio is left as it was. *)
Theorem read_mode_reply (bs : list Z) (rest : list (option Z)) (s : state) :
  complete bs = true -> valid_preamble bs = true ->
  nth 4 bs 0 = C_RD_MODE ->
  let m := x_mode_2_ci_mode (mode (vfo_x (params_band (rig s)) (active_vfo s))) in
  let s' := cat_thread 1 (feed bs ++ rest) s in
  trace s'
  = trace s ++ [EvWrite bs;
                EvWrite [FRAME_PRE; FRAME_PRE; nth 3 bs 0; 0xA4; C_RD_MODE;
                         m; m; FRAME_END]]
  /\ rig s' = rig s
  /\ known_mode m = true.
Proof.
  intros Hc Hp H4 m. open_frame bs rest s Hc Hp. subst b4.
  split; [| split; [done | apply x_mode_2_ci_mode_known]].
  unfold frame_dispatch, load. simpl. trace_done.
Qed.

Lemma read_mode_reply_witness :
  let bs := [0xFE; 0xFE; 0xA4; 0xE0; 0x04; 0xFD] in
  let m := x_mode_2_ci_mode
             (mode (vfo_x (params_band (rig state0)) (active_vfo state0))) in
  let s' := cat_thread 1 (feed bs ++ []) state0 in
  trace s'
  = trace state0 ++ [EvWrite bs;
                     EvWrite [FRAME_PRE; FRAME_PRE; nth 3 bs 0; 0xA4; C_RD_MODE;
                              m; m; FRAME_END]]
  /\ rig s' = rig state0
  /\ known_mode m = true.
Proof.
  apply (read_mode_reply [0xFE; 0xFE; 0xA4; 0xE0; 0x04; 0xFD] [] state0);
    reflexivity.
Defined.

(** *** Set frequency *)

Lemma frame_dispatch_set_freq (len : Z) (st : state) :
  load 4 st = C_SET_FREQ ->
  frame_dispatch len st
  = send_code CODE_OK (set_freq (from_bcd (load_list 5 5 st) 10) st).
Proof. unfold frame_dispatch. by intros ->. Qed.

(** The events of [set_freq]: the band is reselected first when the
    band table has one for the frequency. *)
Lemma set_freq_trace (f : Z) (st : state) :
  trace (set_freq f st)
  = trace st
    ++ match bands_find (rig st) f with
       | Some b => [EvBandsActivate (Some b)]
       | None => []
       end
    ++ [EvRadioSetFreq f; EvScreenUpdate].
Proof.
  unfold set_freq, params_bands_find.
  destruct (bands_find (rig st) f); simpl; by rewrite <- ?app_assoc.
Qed.

Lemma set_freq_frame (f : Z) (st : state) : frame (set_freq f st) = frame st.
Proof.
  unfold set_freq, params_bands_find. by destruct (bands_find (rig st) f).
Qed.

Lemma set_frequency_dispatch (bs : list Z) (rest : list (option Z))
    (s : state) :
  complete bs = true -> valid_preamble bs = true ->
  nth 4 bs 0 = C_SET_FREQ ->
  let f := from_bcd (payload5 5 bs) 10 in
  trace (cat_thread 1 (feed bs ++ rest) s)
  = trace s ++ EvWrite bs
      :: match bands_find (rig s) f with
         | Some b => [EvBandsActivate (Some b)]
         | None => []
         end
      ++ [EvRadioSetFreq f; EvScreenUpdate;
          EvWrite [FRAME_PRE; FRAME_PRE; nth 3 bs 0; 0xA4; CODE_OK; FRAME_END]].
Proof.
  intros Hc Hp H4 f. subst f. open_frame bs rest s Hc Hp. subst b4.
  rewrite frame_dispatch_set_freq by reflexivity.
  change (load_list 5 5 _) with [b5; b6; b7; b8; b9].
  generalize (from_bcd [b5; b6; b7; b8; b9] 10). intros f.
  unfold send_code, send_frame.
  cbn [trace emit]. rewrite !store_trace, set_freq_trace.
  cbn [trace rig]. rewrite <- !app_assoc. cbn [app]. do 4 f_equal.
  rewrite !store_in by done. cbn [frame set_frame]. by rewrite set_freq_frame.
Qed.

(** X9. The set-frequency opcode reads its frequency from the five bytes
    at offsets 5 to 9 of the buffer whatever the frame holds there
    (bytes the frame does not have read as zero), reselects the band
    when the band table has one for it, calls [radio_set_freq], then the
    screen update, and always answers with the success code. *)
Theorem set_frequency_any (bs : list Z) (rest : list (option Z)) (s : state) :
  complete bs = true -> valid_preamble bs = true ->
  nth 4 bs 0 = C_SET_FREQ ->
  let f := from_bcd (payload5 5 bs) 10 in
  trace (cat_thread 1 (feed bs ++ rest) s)
  = trace s ++ EvWrite bs
      :: match bands_find (rig s) f with
         | Some b => [EvBandsActivate (Some b)]
         | None => []
         end
      ++ [EvRadioSetFreq f; EvScreenUpdate;
          EvWrite [FRAME_PRE; FRAME_PRE; nth 3 bs 0; 0xA4; CODE_OK; FRAME_END]].
Proof. apply set_frequency_dispatch. Qed.

Lemma set_frequency_any_witness :
  let bs := [0xFE; 0xFE; 0xA4; 0xE0; 0x05; 0x00; 0x40; 0x07; 0x14; 0x00; 0xFD] in
  let f := from_bcd (payload5 5 bs) 10 in
  trace (cat_thread 1 (feed bs ++ []) state0)
  = trace state0 ++ EvWrite bs
      :: match bands_find (rig state0) f with
         | Some b => [EvBandsActivate (Some b)]
         | None => []
         end
      ++ [EvRadioSetFreq f; EvScreenUpdate;
          EvWrite [FRAME_PRE; FRAME_PRE; nth 3 bs 0; 0xA4; CODE_OK; FRAME_END]].
Proof.
  apply (set_frequency_any
           [0xFE; 0xFE; 0xA4; 0xE0; 0x05; 0x00; 0x40; 0x07; 0x14; 0x00; 0xFD]
           [] state0); reflexivity.
Defined.

Lemma set_freq_header_unterminated (dst src : Z) :
  dst <> FRAME_END -> src <> FRAME_END ->
  unterminated [FRAME_PRE; FRAME_PRE; dst; src; C_SET_FREQ] = true.
Proof.
  intros Hd%Z.eqb_neq Hs%Z.eqb_neq.
  cbn [unterminated forallb]. by rewrite Hd, Hs.
Qed.

(** X10. A set-frequency frame whose payload is the 10-digit BCD
    encoding of [v] makes the dispatcher call [radio_set_freq] with
    exactly [v], for every [v] below 10^10, and answer with the success
    code. *)
Theorem set_frequency_bcd (dst src v : Z) (rest : list (option Z))
    (s : state) :
  dst <> FRAME_END -> src <> FRAME_END -> 0 <= v < 10 ^ 10 ->
  let bs := [FRAME_PRE; FRAME_PRE; dst; src; C_SET_FREQ] ++ to_bcd v 10
              ++ [FRAME_END] in
  trace (cat_thread 1 (feed bs ++ rest) s)
  = trace s ++ EvWrite bs
      :: match bands_find (rig s) v with
         | Some b => [EvBandsActivate (Some b)]
         | None => []
         end
      ++ [EvRadioSetFreq v; EvScreenUpdate;
          EvWrite [FRAME_PRE; FRAME_PRE; src; 0xA4; CODE_OK; FRAME_END]].
Proof.
  intros Hd Hs [Hv0 Hv10] bs.
  destruct (bcd_codec_10 v Hv0) as (Hlen & _ & Hdec). specialize (Hdec Hv10).
  assert (Hbcd : unterminated (to_bcd v 10) = true)
    by apply to_bcd_unterminated.
  assert (Hc : complete bs = true).
  { apply andb_true_iff. split.
    - unfold bs. rewrite app_assoc. apply terminated_snoc.
      unfold unterminated. rewrite forallb_app. apply andb_true_iff.
      split; [by apply set_freq_header_unterminated | done].
    - unfold bs. rewrite !length_app, Hlen. done. }
  assert (Hp : valid_preamble bs = true) by reflexivity.
  assert (E : payload5 5 bs = to_bcd v 10 /\ nth 3 bs 0 = src).
  { unfold bs. destruct (to_bcd_10 v) as (c0 & c1 & c2 & c3 & c4 & ->). done. }
  destruct E as [E5 E3].
  rewrite (set_frequency_dispatch bs rest s Hc Hp eq_refl).
  by rewrite E5, E3, Hdec.
Qed.

Lemma set_frequency_bcd_witness :
  let bs := [FRAME_PRE; FRAME_PRE; 0xA4; 0xE0; C_SET_FREQ]
              ++ to_bcd 7074000 10 ++ [FRAME_END] in
  trace (cat_thread 1 (feed bs ++ []) state0)
  = trace state0 ++ EvWrite bs
      :: match bands_find (rig state0) 7074000 with
         | Some b => [EvBandsActivate (Some b)]
         | None => []
         end
      ++ [EvRadioSetFreq 7074000; EvScreenUpdate;
          EvWrite [FRAME_PRE; FRAME_PRE; 0xE0; 0xA4; CODE_OK; FRAME_END]].
Proof.
  apply (set_frequency_bcd 0xA4 0xE0 7074000 [] state0);
    unfold FRAME_END; simpl; lia.
Defined.

(** *** Set mode *)

(** X11. The set-mode opcode always answers with the success code, also
    for a mode byte that is not a known wire code. It calls
    [radio_set_mode] for the active VFO, and for a known wire code the
    mode it passes is the plain, never the digital, variant of that
    code. *)
Theorem set_mode_plain (bs : list Z) (rest : list (option Z)) (s : state) :
  complete bs = true -> valid_preamble bs = true ->
  nth 4 bs 0 = C_SET_MODE ->
  exists m,
    trace (cat_thread 1 (feed bs ++ rest) s)
    = trace s ++ [EvWrite bs; EvRadioSetMode (active_vfo s) m; EvScreenUpdate;
                  EvWrite [FRAME_PRE; FRAME_PRE; nth 3 bs 0; 0xA4; CODE_OK;
                           FRAME_END]]
    /\ (known_mode (nth 5 bs 0) = true ->
        x_mode_2_ci_mode m = nth 5 bs 0 /\ x_mode_digital m = false).
Proof.
  intros Hc Hp H4. open_frame bs rest s Hc Hp. subst b4.
  exists (ci_mode_2_x_mode (indet s) b5 None). split.
  - unfold frame_dispatch, load. simpl. trace_done.
  - intros Hk. destruct (ci_mode_known (indet s) b5 None Hk) as [H1 H2].
    split; [done |]. by rewrite H2, andb_false_r.
Qed.

Lemma set_mode_plain_witness :
  let bs := [0xFE; 0xFE; 0xA4; 0xE0; 0x06; 0x03; 0xFD] in
  exists m,
    trace (cat_thread 1 (feed bs ++ []) state0)
    = trace state0 ++ [EvWrite bs; EvRadioSetMode (active_vfo state0) m;
                       EvScreenUpdate;
                       EvWrite [FRAME_PRE; FRAME_PRE; nth 3 bs 0; 0xA4; CODE_OK;
                                FRAME_END]]
    /\ (known_mode (nth 5 bs 0) = true ->
        x_mode_2_ci_mode m = nth 5 bs 0 /\ x_mode_digital m = false).
Proof.
  apply (set_mode_plain [0xFE; 0xFE; 0xA4; 0xE0; 0x06; 0x03; 0xFD] [] state0);
    reflexivity.
Defined.

(** *** Transmit control *)

(** X12. The transmit-control query (sub-selector 0x00 directly followed
    by the terminator) is answered with an 8-byte frame whose byte 6 is
    0 when the radio receives and 1 otherwise; nothing is changed. *)
Theorem ptt_query_reply (bs : list Z) (rest : list (option Z)) (s : state) :
  complete bs = true -> valid_preamble bs = true ->
  nth 4 bs 0 = C_CTL_PTT -> nth 5 bs 0 = 0x00 -> nth 6 bs 0 = FRAME_END ->
  let st := match radio_state (rig s) with RADIO_RX => 0 | _ => 1 end in
  let s' := cat_thread 1 (feed bs ++ rest) s in
  trace s'
  = trace s ++ [EvWrite bs;
                EvWrite [FRAME_PRE; FRAME_PRE; nth 3 bs 0; 0xA4; C_CTL_PTT;
                         0x00; st; FRAME_END]]
  /\ rig s' = rig s.
Proof.
  intros Hc Hp H4 H5 H6 st. open_frame bs rest s Hc Hp. subst b4 b5 b6.
  unfold frame_dispatch, load. simpl. trace_done.
Qed.

Lemma ptt_query_reply_witness :
  let bs := [0xFE; 0xFE; 0xA4; 0xE0; 0x1C; 0x00; 0xFD] in
  let st := match radio_state (rig state0) with RADIO_RX => 0 | _ => 1 end in
  let s' := cat_thread 1 (feed bs ++ []) state0 in
  trace s'
  = trace state0 ++ [EvWrite bs;
                     EvWrite [FRAME_PRE; FRAME_PRE; nth 3 bs 0; 0xA4; C_CTL_PTT;
                              0x00; st; FRAME_END]]
  /\ rig s' = rig state0.
Proof.
  apply (ptt_query_reply [0xFE; 0xFE; 0xA4; 0xE0; 0x1C; 0x00; 0xFD] [] state0);
    reflexivity.
Defined.

(** X13. The transmit-control set form calls [radio_set_ptt] with false
    for the value 0 and with true for the value 1; any other value makes
    no call at all. In the three cases the reply is the same 8-byte
    frame with the success code in byte 6. *)
Theorem ptt_set_reply (bs : list Z) (rest : list (option Z)) (s : state) :
  complete bs = true -> valid_preamble bs = true ->
  nth 4 bs 0 = C_CTL_PTT -> nth 5 bs 0 = 0x00 -> nth 6 bs 0 <> FRAME_END ->
  trace (cat_thread 1 (feed bs ++ rest) s)
  = trace s ++ EvWrite bs
      :: (if nth 6 bs 0 =? 0 then [EvRadioSetPtt false]
          else if nth 6 bs 0 =? 1 then [EvRadioSetPtt true]
          else [])
      ++ [EvWrite [FRAME_PRE; FRAME_PRE; nth 3 bs 0; 0xA4; C_CTL_PTT; 0x00;
                   CODE_OK; FRAME_END]].
Proof.
  intros Hc Hp H4 H5 H6. open_frame bs rest s Hc Hp. subst b4 b5.
  apply Z.eqb_neq in H6.
  unfold frame_dispatch, load. simpl. rewrite H6.
  destruct (b6 =? 0); [simpl; trace_done |].
  destruct (b6 =? 1); simpl; trace_done.
Qed.

Lemma ptt_set_reply_witness :
  let bs := [0xFE; 0xFE; 0xA4; 0xE0; 0x1C; 0x00; 0x02; 0xFD] in
  trace (cat_thread 1 (feed bs ++ []) state0)
  = trace state0 ++ EvWrite bs
      :: (if nth 6 bs 0 =? 0 then [EvRadioSetPtt false]
          else if nth 6 bs 0 =? 1 then [EvRadioSetPtt true]
          else [])
      ++ [EvWrite [FRAME_PRE; FRAME_PRE; nth 3 bs 0; 0xA4; C_CTL_PTT; 0x00;
                   CODE_OK; FRAME_END]].
Proof.
  apply (ptt_set_reply [0xFE; 0xFE; 0xA4; 0xE0; 0x1C; 0x00; 0x02; 0xFD] []
           state0); [reflexivity | reflexivity | reflexivity | reflexivity |].
  unfold FRAME_END. simpl. lia.
Defined.

(** *** Select VFO *)

(** X14. A select-VFO frame with selector 0x00 or 0x01 calls
    [radio_set_vfo] for VFO A or VFO B, then the screen update, and
    answers with the success code in a 6-byte frame. *)
Theorem select_vfo_valid (v : x6100_vfo_t) (bs : list Z)
    (rest : list (option Z)) (s : state) :
  complete bs = true -> valid_preamble bs = true ->
  nth 4 bs 0 = C_SET_VFO ->
  nth 5 bs 0 = match v with X6100_VFO_A => S_VFOA | X6100_VFO_B => S_VFOB end ->
  trace (cat_thread 1 (feed bs ++ rest) s)
  = trace s ++ [EvWrite bs; EvRadioSetVfo v; EvScreenUpdate;
                EvWrite [FRAME_PRE; FRAME_PRE; nth 3 bs 0; 0xA4; CODE_OK;
                         FRAME_END]].
Proof.
  intros Hc Hp H4 H5. open_frame bs rest s Hc Hp. subst b4 b5.
  unfold frame_dispatch, set_vfo, load. destruct v; simpl; trace_done.
Qed.

Lemma select_vfo_valid_witness :
  let bs := [0xFE; 0xFE; 0xA4; 0xE0; 0x07; 0x01; 0xFD] in
  trace (cat_thread 1 (feed bs ++ []) state0)
  = trace state0 ++ [EvWrite bs; EvRadioSetVfo X6100_VFO_B; EvScreenUpdate;
                     EvWrite [FRAME_PRE; FRAME_PRE; nth 3 bs 0; 0xA4; CODE_OK;
                              FRAME_END]].
Proof.
  apply (select_vfo_valid X6100_VFO_B
           [0xFE; 0xFE; 0xA4; 0xE0; 0x07; 0x01; 0xFD] [] state0); reflexivity.
Defined.

(** *** Selected-VFO frequency and mode *)

(** X15. The query form of the selected-VFO-frequency opcode is answered
    with a 12-byte frame that repeats the selector and carries the
    stored frequency of VFO A for selector 0x00 and of VFO B for any
    other selector byte, as 5 BCD bytes; an unknown selector is not
    refused, and nothing is changed. *)
Theorem sel_freq_query_reply (bs : list Z) (rest : list (option Z))
    (s : state) :
  complete bs = true -> valid_preamble bs = true ->
  nth 4 bs 0 = C_SEND_SEL_FREQ -> nth 6 bs 0 = FRAME_END ->
  let f := freq (vfo_x (params_band (rig s))
                   (if nth 5 bs 0 =? 0x00 then X6100_VFO_A else X6100_VFO_B)) in
  let reply := [FRAME_PRE; FRAME_PRE; nth 3 bs 0; 0xA4; C_SEND_SEL_FREQ;
                nth 5 bs 0] ++ to_bcd f 10 ++ [FRAME_END] in
  let s' := cat_thread 1 (feed bs ++ rest) s in
  trace s' = trace s ++ [EvWrite bs; EvWrite reply]
  /\ length reply = 12%nat
  /\ rig s' = rig s.
Proof.
  intros Hc Hp H4 H6 f reply. subst reply f.
  open_frame bs rest s Hc Hp. subst b4 b6.
  rewrite frame_dispatch_sel_freq_query by reflexivity.
  change (load 5 _) with b5. cbn [rig].
  generalize (freq (vfo_x (params_band (rig s))
                      (if b5 =? 0 then X6100_VFO_A else X6100_VFO_B))).
  intros f. destruct (to_bcd_10 f) as (c0 & c1 & c2 & c3 & c4 & ->).
  simpl. trace_done.
Qed.

Lemma sel_freq_query_reply_witness :
  let bs := [0xFE; 0xFE; 0xA4; 0xE0; 0x25; 0x07; 0xFD] in
  let f := freq (vfo_x (params_band (rig state0))
                   (if nth 5 bs 0 =? 0x00 then X6100_VFO_A else X6100_VFO_B)) in
  let reply := [FRAME_PRE; FRAME_PRE; nth 3 bs 0; 0xA4; C_SEND_SEL_FREQ;
                nth 5 bs 0] ++ to_bcd f 10 ++ [FRAME_END] in
  let s' := cat_thread 1 (feed bs ++ []) state0 in
  trace s' = trace state0 ++ [EvWrite bs; EvWrite reply]
  /\ length reply = 12%nat
  /\ rig s' = rig state0.
Proof.
  apply (sel_freq_query_reply [0xFE; 0xFE; 0xA4; 0xE0; 0x25; 0x07; 0xFD] []
           state0); reflexivity.
Defined.

Lemma frame_dispatch_sel_freq_set_eq (len : Z) (st : state) :
  load 4 st = C_SEND_SEL_FREQ -> load 6 st <> FRAME_END ->
  frame_dispatch len st
  = let f := from_bcd (load_list 6 5 st) 10 in
    let v := if load 5 st =? 0x00 then X6100_VFO_A else X6100_VFO_B in
    let st1 := assign_freq v f st in
    send_code CODE_OK
      (if vfo_eqb (active_vfo st1) v then set_freq f st1 else st1).
Proof.
  intros H4 H6%Z.eqb_neq. unfold frame_dispatch. rewrite H4, H6.
  by destruct (load 5 st =? 0).
Qed.

(** X16. The set form of the selected-VFO-frequency opcode, addressed to
    the VFO that is not the active one, writes the decoded frequency
    into that VFO's slot and nothing else: no call into the radio, no
    screen update, the mode of the slot, the other slot and the active
    VFO are kept, and the reply is the success code. *)
Theorem sel_freq_set_inactive (bs : list Z) (rest : list (option Z))
    (s : state) :
  complete bs = true -> valid_preamble bs = true ->
  nth 4 bs 0 = C_SEND_SEL_FREQ -> nth 6 bs 0 <> FRAME_END ->
  let v := if nth 5 bs 0 =? 0x00 then X6100_VFO_A else X6100_VFO_B in
  let f := from_bcd (payload5 6 bs) 10 in
  v <> active_vfo s ->
  let s' := cat_thread 1 (feed bs ++ rest) s in
  trace s'
  = trace s ++ [EvWrite bs;
                EvWrite [FRAME_PRE; FRAME_PRE; nth 3 bs 0; 0xA4; CODE_OK;
                         FRAME_END]]
  /\ rig s'
     = set_params_band
         (set_vfo_x v (VfoParams f (mode (vfo_x (params_band (rig s)) v)))
            (params_band (rig s)))
         (rig s).
Proof.
  intros Hc Hp H4 H6 v f Hv. subst v f. open_frame bs rest s Hc Hp. subst b4.
  rewrite frame_dispatch_sel_freq_set_eq by done.
  change (load_list 6 5 _) with [b6; b7; b8; b9; b10].
  generalize (from_bcd [b6; b7; b8; b9; b10] 10). intros f.
  change (load 5 _) with b5.
  destruct s as [fr o [[a va vb] fb rs bf] ind tr].
  unfold active_vfo in Hv. cbn [rig params_band vfo] in Hv.
  destruct (b5 =? 0), a; try done; simpl; trace_done.
Qed.

Lemma sel_freq_set_inactive_witness :
  let bs := [0xFE; 0xFE; 0xA4; 0xE0; 0x25; 0x01; 0x00; 0x00; 0x10; 0x07; 0x00;
             0xFD] in
  let v := if nth 5 bs 0 =? 0x00 then X6100_VFO_A else X6100_VFO_B in
  let f := from_bcd (payload5 6 bs) 10 in
  let s' := cat_thread 1 (feed bs ++ []) state0 in
  trace s'
  = trace state0 ++ [EvWrite bs;
                     EvWrite [FRAME_PRE; FRAME_PRE; nth 3 bs 0; 0xA4; CODE_OK;
                              FRAME_END]]
  /\ rig s'
     = set_params_band
         (set_vfo_x v
            (VfoParams f (mode (vfo_x (params_band (rig state0)) v)))
            (params_band (rig state0)))
         (rig state0).
Proof.
  apply (sel_freq_set_inactive
           [0xFE; 0xFE; 0xA4; 0xE0; 0x25; 0x01; 0x00; 0x00; 0x10; 0x07; 0x00;
            0xFD] [] state0);
    [reflexivity | reflexivity | reflexivity | unfold FRAME_END; simpl; lia
    | discriminate].
Defined.

(** X17. The same set form addressed to the active VFO also applies the
    frequency live: after the slot is written the dispatcher goes
    through [set_freq] (band reselection when the table has a band,
    [radio_set_freq], screen update) before it answers with the success
    code. *)
Theorem sel_freq_set_active (bs : list Z) (rest : list (option Z))
    (s : state) :
  complete bs = true -> valid_preamble bs = true ->
  nth 4 bs 0 = C_SEND_SEL_FREQ -> nth 6 bs 0 <> FRAME_END ->
  let v := if nth 5 bs 0 =? 0x00 then X6100_VFO_A else X6100_VFO_B in
  let f := from_bcd (payload5 6 bs) 10 in
  v = active_vfo s ->
  trace (cat_thread 1 (feed bs ++ rest) s)
  = trace s ++ EvWrite bs
      :: match bands_find (rig s) f with
         | Some b => [EvBandsActivate (Some b)]
         | None => []
         end
      ++ [EvRadioSetFreq f; EvScreenUpdate;
          EvWrite [FRAME_PRE; FRAME_PRE; nth 3 bs 0; 0xA4; CODE_OK; FRAME_END]].
Proof.
  intros Hc Hp H4 H6 v f Hv. subst v f. open_frame bs rest s Hc Hp. subst b4.
  rewrite frame_dispatch_sel_freq_set_eq by done.
  change (load_list 6 5 _) with [b6; b7; b8; b9; b10].
  generalize (from_bcd [b6; b7; b8; b9; b10] 10). intros f.
  change (load 5 _) with b5.
  destruct s as [fr o [[a va vb] fb rs bf] ind tr].
  unfold active_vfo in Hv. cbn [rig params_band vfo] in Hv.
  unfold set_freq, params_bands_find.
  destruct (b5 =? 0), a; try done; simpl; destruct (bf f); simpl; trace_done.
Qed.

Lemma sel_freq_set_active_witness :
  let bs := [0xFE; 0xFE; 0xA4; 0xE0; 0x25; 0x00; 0x00; 0x00; 0x10; 0x07; 0x00;
             0xFD] in
  let f := from_bcd (payload5 6 bs) 10 in
  trace (cat_thread 1 (feed bs ++ []) state0)
  = trace state0 ++ EvWrite bs
      :: match bands_find (rig state0) f with
         | Some b => [EvBandsActivate (Some b)]
         | None => []
         end
      ++ [EvRadioSetFreq f; EvScreenUpdate;
          EvWrite [FRAME_PRE; FRAME_PRE; nth 3 bs 0; 0xA4; CODE_OK; FRAME_END]].
Proof.
  apply (sel_freq_set_active
           [0xFE; 0xFE; 0xA4; 0xE0; 0x25; 0x00; 0x00; 0x00; 0x10; 0x07; 0x00;
            0xFD] [] state0);
    [reflexivity | reflexivity | reflexivity | unfold FRAME_END; simpl; lia
    | reflexivity].
Defined.

(** X18. The query form of the selected-VFO-mode opcode is answered with
    the same 10-byte frame whatever the modes of the VFOs are: bytes 6
    and 7 are zero and byte 8 is the success code. Nothing is
    changed. *)
Theorem sel_mode_query_reply (bs : list Z) (rest : list (option Z))
    (s : state) :
  complete bs = true -> valid_preamble bs = true ->
  nth 4 bs 0 = C_SEND_SEL_MODE -> nth 6 bs 0 = FRAME_END ->
  let s' := cat_thread 1 (feed bs ++ rest) s in
  trace s'
  = trace s ++ [EvWrite bs;
                EvWrite [FRAME_PRE; FRAME_PRE; nth 3 bs 0; 0xA4;
                         C_SEND_SEL_MODE; nth 5 bs 0; 0; 0; CODE_OK;
                         FRAME_END]]
  /\ rig s' = rig s.
Proof.
  intros Hc Hp H4 H6. open_frame bs rest s Hc Hp. subst b4 b6.
  unfold frame_dispatch, load. simpl. trace_done.
Qed.

Lemma sel_mode_query_reply_witness :
  let bs := [0xFE; 0xFE; 0xA4; 0xE0; 0x26; 0x00; 0xFD] in
  let s' := cat_thread 1 (feed bs ++ []) state0 in
  trace s'
  = trace state0 ++ [EvWrite bs;
                     EvWrite [FRAME_PRE; FRAME_PRE; nth 3 bs 0; 0xA4;
                              C_SEND_SEL_MODE; nth 5 bs 0; 0; 0; CODE_OK;
                              FRAME_END]]
  /\ rig s' = rig state0.
Proof.
  apply (sel_mode_query_reply [0xFE; 0xFE; 0xA4; 0xE0; 0x26; 0x00; 0xFD] []
           state0); reflexivity.
Defined.

(** X19. The set form of the selected-VFO-mode opcode reads its selector
    relative to the active VFO: 0x00 is the active VFO, any other byte
    the other one. Byte 7 is the data flag: for the wire codes LSB and
    USB a non-zero byte 7 gives the digital variant, and a frame that
    ends right after the mode byte has the terminator there, so it
    counts as digital as well. The reply is always the success code. *)
Theorem sel_mode_set_call (bs : list Z) (rest : list (option Z)) (s : state) :
  complete bs = true -> valid_preamble bs = true ->
  nth 4 bs 0 = C_SEND_SEL_MODE -> nth 6 bs 0 <> FRAME_END ->
  let v := if nth 5 bs 0 =? 0 then active_vfo s
           else other_vfo (active_vfo s) in
  exists m,
    trace (cat_thread 1 (feed bs ++ rest) s)
    = trace s ++ [EvWrite bs; EvRadioSetMode v m; EvScreenUpdate;
                  EvWrite [FRAME_PRE; FRAME_PRE; nth 3 bs 0; 0xA4; CODE_OK;
                           FRAME_END]]
    /\ (known_mode (nth 6 bs 0) = true ->
        x_mode_2_ci_mode m = nth 6 bs 0 /\
        x_mode_digital m
        = ((nth 6 bs 0 =? M_LSB) || (nth 6 bs 0 =? M_USB))
          && negb (nth 7 bs 0 =? 0)).
Proof.
  intros Hc Hp H4 H6 v. subst v. open_frame bs rest s Hc Hp. subst b4.
  apply Z.eqb_neq in H6.
  exists (ci_mode_2_x_mode (indet s) b6 (Some b7)). split.
  - unfold frame_dispatch, load, other_vfo. simpl. rewrite H6.
    destruct (b5 =? 0); simpl; trace_done.
  - intros Hk. exact (ci_mode_known (indet s) b6 (Some b7) Hk).
Qed.

Lemma sel_mode_set_call_witness :
  let bs := [0xFE; 0xFE; 0xA4; 0xE0; 0x26; 0x01; 0x01; 0xFD] in
  let v := if nth 5 bs 0 =? 0 then active_vfo state0
           else other_vfo (active_vfo state0) in
  exists m,
    trace (cat_thread 1 (feed bs ++ []) state0)
    = trace state0 ++ [EvWrite bs; EvRadioSetMode v m; EvScreenUpdate;
                       EvWrite [FRAME_PRE; FRAME_PRE; nth 3 bs 0; 0xA4; CODE_OK;
                                FRAME_END]]
    /\ (known_mode (nth 6 bs 0) = true ->
        x_mode_2_ci_mode m = nth 6 bs 0 /\
        x_mode_digital m
        = ((nth 6 bs 0 =? M_LSB) || (nth 6 bs 0 =? M_USB))
          && negb (nth 7 bs 0 =? 0)).
Proof.
  apply (sel_mode_set_call [0xFE; 0xFE; 0xA4; 0xE0; 0x26; 0x01; 0x01; 0xFD] []
           state0); [reflexivity | reflexivity | reflexivity |].
  unfold FRAME_END. simpl. lia.
Defined.

(** *** Every reply *)



(** ** Mode translator, from the domain side *)

(** X21. A domain mode that cat.c names survives the translation to the
    wire and back when the data flag tells whether it is a digital
    variant; with no data flag the plain modes survive and the digital
    ones come back as their plain variant. *)
Theorem domain_mode_roundtrip (r m : x6100_mode_t) :
  x_mode_named m = true ->
  ci_mode_2_x_mode r (x_mode_2_ci_mode m)
    (Some (if x_mode_digital m then 1 else 0)) = m
  /\ x_mode_2_ci_mode (ci_mode_2_x_mode r (x_mode_2_ci_mode m) None)
     = x_mode_2_ci_mode m
  /\ x_mode_digital (ci_mode_2_x_mode r (x_mode_2_ci_mode m) None) = false
  /\ (x_mode_digital m = false ->
      ci_mode_2_x_mode r (x_mode_2_ci_mode m) None = m).
Proof. by destruct m. Qed.

Lemma domain_mode_roundtrip_witness :
  ci_mode_2_x_mode x6100_mode_am (x_mode_2_ci_mode x6100_mode_usb_dig)
    (Some (if x_mode_digital x6100_mode_usb_dig then 1 else 0))
  = x6100_mode_usb_dig
  /\ x_mode_2_ci_mode
       (ci_mode_2_x_mode x6100_mode_am (x_mode_2_ci_mode x6100_mode_usb_dig)
          None)
     = x_mode_2_ci_mode x6100_mode_usb_dig
  /\ x_mode_digital
       (ci_mode_2_x_mode x6100_mode_am (x_mode_2_ci_mode x6100_mode_usb_dig)
          None) = false
  /\ (x_mode_digital x6100_mode_usb_dig = false ->
      ci_mode_2_x_mode x6100_mode_am (x_mode_2_ci_mode x6100_mode_usb_dig) None
      = x6100_mode_usb_dig).
Proof.
  apply (domain_mode_roundtrip x6100_mode_am x6100_mode_usb_dig). reflexivity.
Defined.

(** ** Buffer bounds *)

Lemma oob_prepare_answer (st : state) : oob (prepare_answer st) = oob st.
Proof. unfold prepare_answer. by rewrite !oob_store. Qed.

(** X22. On a complete frame, whatever its preamble, opcode and payload,
    one loop iteration keeps every store inside the 256-byte buffer. *)
Theorem frame_stays_in_bounds (bs : list Z) (rest : list (option Z))
    (s : state) :
  complete bs = true ->
  oob (cat_thread 1 (feed bs ++ rest) s) = oob s.
Proof.
  intros Hc. rewrite cat_thread_unfold, frame_get_complete by done.
  cbn [cat_thread]. rewrite oob_frame_parse; [done |].
  pose proof (complete_length bs Hc). unfold FRAME_SIZE. lia.
Qed.

Lemma frame_stays_in_bounds_witness :
  oob (cat_thread 1 (feed half_preamble_set_vfo ++ []) state0) = oob state0.
Proof.
  apply (frame_stays_in_bounds half_preamble_set_vfo [] state0). reflexivity.
Defined.

(** X23. After an abandoned read of 256 bytes without a terminator the
    loop still enters the dispatcher with length 0; when one of the
    first two buffered bytes is the preamble byte, the echo stores the
    terminator at index -1, one byte before the buffer. *)
Theorem overlong_frame_out_of_bounds (bs : list Z) (rest : list (option Z))
    (s : state) :
  length bs = 256%nat -> unterminated bs = true ->
  nth 0 bs 0 = FRAME_PRE \/ nth 1 bs 0 = FRAME_PRE ->
  oob (cat_thread 1 (feed bs ++ rest) s) = true.
Proof.
  intros Hl Hu Hpre. rewrite cat_thread_unfold, frame_get_overflow by done.
  cbn [cat_thread]. rewrite frame_parse_accepts by (by rewrite !load_recv).
  by rewrite oob_frame_dispatch, oob_prepare_answer.
Qed.

Lemma overlong_frame_out_of_bounds_witness :
  oob (cat_thread 1 (feed overlong_set_vfo ++ []) state0) = true.
Proof.
  apply (overlong_frame_out_of_bounds overlong_set_vfo [] state0);
    [reflexivity | reflexivity | left; reflexivity].
Defined.
